(** * webflow-util: poster mirror, membership cache and flag tracker

    A shallow embedding of three browser-side utilities:

    - [WebflowVideo.processAllDataPosterUrls]   (dist/webflow-video.js)
    - [WfuTracker]                              (src/modules/webflow-track.js)
    - [Sa5Membership]                           (src/webflow-membership.ts)

    The browser is an explicit state: the two Web Storage areas are finite
    maps from strings to strings, [document.cookie] is an ordered cookie jar
    behind the getter and setter of the platform, the document is the list of
    its elements in document order, and the calls made to collaborators that
    live outside these files (data binder, update callback, launched
    fetches) are recorded in an event log. Tracing through [Sa5Debug] has no
    effect on any of these and is left out. *)

From Stdlib Require Import Ascii String.
From stdpp Require Import gmap strings list fin_maps countable.

Local Open Scope string_scope.

(** ** JavaScript values and strings *)

(** The few JavaScript values the three files test for truthiness or
    return. *)
Inductive JsValue : Type :=
  | JsUndefined
  | JsNull
  | JsBool (b : bool)
  | JsString (s : string)
  | JsFunction.

Definition truthy (v : JsValue) : bool :=
  match v with
  | JsUndefined | JsNull => false
  | JsBool b => b
  | JsString s => negb (String.eqb s "")
  | JsFunction => true
  end.

(** [a || b] *)
Definition js_or (a b : JsValue) : JsValue := if truthy a then a else b.

(** [v == null]: what a caller sees as "nothing came back". *)
Definition nullish (v : JsValue) : bool :=
  match v with
  | JsUndefined | JsNull => true
  | _ => false
  end.

(** A call either completes normally or throws. *)
Inductive Completion (A : Type) : Type :=
  | Normal (a : A)
  | Throw.
Arguments Normal {A} a.
Arguments Throw {A}.

(** [val || "true"] for an optional string argument: [undefined] and the
    empty string are both falsy. *)
Definition or_true (val : option string) : string :=
  match val with
  | Some (String c s) => String c s
  | _ => "true"
  end.

(** [String.prototype.startsWith], also [s.indexOf(p) === 0]. *)
Definition startsWith (s p : string) : bool := String.prefix p s.

(** White space of [String.prototype.trim] among the 7-bit characters:
    TAB, LF, VT, FF, CR and SPACE. *)
Definition is_ws (c : ascii) : bool :=
  let n := nat_of_ascii c in
  Nat.eqb n 32 || (Nat.leb 9 n && Nat.leb n 13).

Fixpoint trimStart (s : string) : string :=
  match s with
  | "" => ""
  | String c s' => if is_ws c then trimStart s' else s
  end.

Fixpoint trimEnd (s : string) : string :=
  match s with
  | "" => ""
  | String c s' =>
      match trimEnd s' with
      | "" => if is_ws c then "" else String c ""
      | r => String c r
      end
  end.

Definition trim (s : string) : string := trimEnd (trimStart s).

(** Puts a character in front of the first piece of a split. *)
Definition cons_hd (c : ascii) (l : list string) : list string :=
  match l with
  | [] => [String c ""]
  | x :: xs => String c x :: xs
  end.

(** [String.prototype.split] with a non-empty separator: the pieces between
    the non-overlapping occurrences of [sep], found left to right. [skip]
    counts the characters of a matched separator still to be dropped. *)
Fixpoint split_go (sep s : string) (skip : nat) : list string :=
  match s with
  | "" => [""]
  | String c s' =>
      match skip with
      | S k => split_go sep s' k
      | O =>
          if String.prefix sep s
          then "" :: split_go sep s' (String.length sep - 1)
          else cons_hd c (split_go sep s' 0)
      end
  end.

Definition split (sep s : string) : list string := split_go sep s 0.

(** [Array.prototype.join]. *)
Fixpoint join (sep : string) (l : list string) : string :=
  match l with
  | [] => ""
  | [x] => x
  | x :: xs => x +:+ sep +:+ join sep xs
  end.

(** ** The browser *)

(** A profile as the membership code uses it. *)
Record LoadedFlags : Type := mkFlags {
  fl_email : bool;
  fl_account_info : bool;
  fl_custom_fields : bool;
  fl_access_groups : bool
}.

(** Modelled from the spec: the class [Sa5User] of
    ./webflow-membership/user is not among the sources. The fields are the
    ones the membership code reads and writes; a field that was never
    assigned is [None] ([undefined]). A custom field holds a string or the
    checked state of a checkbox. *)
Record Sa5User : Type := mkUser {
  email : option string;
  name : option string;
  accept_communications : option bool;
  data : gmap string (string + bool);
  user_data_loaded : LoadedFlags
}.

(** [new Sa5User()] *)
Definition blank_flags : LoadedFlags := mkFlags false false false false.
Definition blank_user : Sa5User := mkUser None None None ∅ blank_flags.

(** Calls that leave the three files. *)
Inductive Fetch : Type := LoginInfo | AccountInfo | AccessGroups.

Inductive Event : Type :=
  | EvDataBind (u : Sa5User)      (* new WfuDataBinder({user}).bind() *)
  | EvCallback (u : Sa5User)      (* config.userInfoUpdatedCallback(u) *)
  | EvLaunch (f : Fetch).         (* a loadUserInfoAsync_* call *)

Record Browser : Type := mkBrowser {
  sessionStorage : gmap string string;
  localStorage : gmap string string;
  cookies : list (string * string);
  log : list Event
}.

Definition set_session (m : gmap string string) (b : Browser) : Browser :=
  mkBrowser m (localStorage b) (cookies b) (log b).
Definition set_local (m : gmap string string) (b : Browser) : Browser :=
  mkBrowser (sessionStorage b) m (cookies b) (log b).
Definition set_cookies (j : list (string * string)) (b : Browser) : Browser :=
  mkBrowser (sessionStorage b) (localStorage b) j (log b).
Definition emit (e : Event) (b : Browser) : Browser :=
  mkBrowser (sessionStorage b) (localStorage b) (cookies b) (log b ++ [e]).

(** [Storage.getItem] answers [null] ([None]) for a missing key. *)
Definition storage_getItem (m : gmap string string) (k : string)
  : option string := m !! k.

(** Truthiness of what [getItem] answered: [null] and [""] are falsy. *)
Definition truthy_item (o : option string) : bool :=
  match o with
  | Some (String _ _) => true
  | _ => false
  end.

(** Named entries kept in order, as a cookie jar and the attributes of an
    element are: setting a name that is there replaces its value in place, a
    new name comes last. *)
Definition alist_remove (n : string) (l : list (string * string))
  : list (string * string) :=
  filter (λ c, c.1 ≠ n) l.

Fixpoint alist_set (n v : string) (l : list (string * string))
  : list (string * string) :=
  match l with
  | [] => [(n, v)]
  | c :: l' =>
      if String.eqb c.1 n then (n, v) :: l' else c :: alist_set n v l'
  end.

(** *** [document.cookie]

    The platform behind the getter and the setter, after RFC 6265 (5.2 and
    5.4), for one origin and one path and for the cookies a script can see:
    the jar keeps name and value of every cookie in creation order. A write
    that holds a control character other than TAB is ignored. Only what the
    tracker writes is interpreted: a name, a value, and an [expires]
    attribute carrying the epoch date, which deletes the cookie. A write
    without [=] or with an empty name (a nameless cookie) is left out of the
    model and changes nothing. *)

(** Control characters, TAB apart. *)
Definition is_ctl (c : ascii) : bool :=
  let n := nat_of_ascii c in
  (Nat.ltb n 32 && negb (Nat.eqb n 9)) || Nat.eqb n 127.

Fixpoint has_ctl (s : string) : bool :=
  match s with
  | "" => false
  | String a s' => is_ctl a || has_ctl s'
  end.

Definition row (c : string * string) : string := c.1 +:+ "=" +:+ c.2.

(** The getter. *)
Definition cookie_string (jar : list (string * string)) : string :=
  join "; " (map row jar).

(** The text before and after the first occurrence of [c]. *)
Fixpoint cut (c : ascii) (s : string) : option (string * string) :=
  match s with
  | "" => None
  | String a s' =>
      if Ascii.eqb a c then Some ("", s')
      else match cut c s' with
           | Some (l, r) => Some (String a l, r)
           | None => None
           end
  end.

Definition epoch : string := "Thu, 01 Jan 1970 00:00:00 GMT".

Definition attr_expired (av : string) : bool :=
  match cut "=" av with
  | Some (a, v) => String.eqb (trim a) "expires" && String.eqb (trim v) epoch
  | None => false
  end.

(** The setter. *)
Definition cookie_assign (s : string) (jar : list (string * string))
  : list (string * string) :=
  if has_ctl s then jar
  else
    let '(nv, attrs) :=
      match cut ";" s with
      | Some (nv, rest) => (nv, split ";" rest)
      | None => (s, [])
      end in
    match cut "=" nv with
    | None => jar
    | Some (n, v) =>
        if String.eqb (trim n) "" then jar
        else if existsb attr_expired attrs then alist_remove (trim n) jar
        else alist_set (trim n) (trim v) jar
    end.

Definition document_cookie (b : Browser) : string := cookie_string (cookies b).
Definition set_document_cookie (s : string) (b : Browser) : Browser :=
  set_cookies (cookie_assign s (cookies b)) b.

(** Well-formed jars. A cookie's name is not empty, has no white space
    around it and holds neither [=] nor [;]; a value holds no [;]; neither
    holds a control character. *)
Fixpoint has_char (c : ascii) (s : string) : bool :=
  match s with
  | "" => false
  | String a s' => Ascii.eqb a c || has_char c s'
  end.

Definition name_ok (n : string) : Prop :=
  n ≠ "" ∧ trim n = n ∧ has_char "=" n = false ∧ has_char ";" n = false
  ∧ has_ctl n = false.

Definition cookie_ok (c : string * string) : Prop :=
  name_ok c.1 ∧ has_char ";" c.2 = false ∧ has_ctl c.2 = false.

Definition jar_ok (jar : list (string * string)) : Prop := Forall cookie_ok jar.

(** Whether a string opens with white space. *)
Definition lead_ws (s : string) : bool :=
  match s with
  | String c _ => is_ws c
  | "" => false
  end.

(** The name the loop of the tracker's [reset] reads off one piece of the
    cookie string: [arrSplit[i].trim().split("=")[0]]. *)
Definition piece_to_name (item : string) : string :=
  hd "" (split "=" (trim item)).

(** *** The document *)

(** An element: its local name (lower case in an HTML document) and its
    attributes in the order they were set. *)
Record Element : Type := mkElement {
  localName : string;
  attributes : list (string * string)
}.

(** [Element.getAttribute]: [null] ([None]) when the attribute is absent. *)
Definition getAttribute (n : string) (e : Element) : option string :=
  snd <$> List.find (λ a, String.eqb a.1 n) (attributes e).

Definition hasAttribute (n : string) (e : Element) : bool :=
  bool_decide (is_Some (getAttribute n e)).

(** [Element.setAttribute]: the value of an attribute that is there is
    replaced in place, a new attribute comes last. *)
Definition setAttribute (n v : string) (e : Element) : Element :=
  mkElement (localName e) (alist_set n v (attributes e)).

(** ** dist/webflow-video.js *)

Module WebflowVideo.

(** The selector [div[wfu-data-poster-url]]. *)
Definition selected (e : Element) : bool :=
  String.eqb (localName e) "div" && hasAttribute "wfu-data-poster-url" e.

(** The body of the [forEach]; a [null] from [getAttribute] would be
    written as the text [null]. *)
Definition mirror (e : Element) : Element :=
  setAttribute "data-poster-url"
    (default "null" (getAttribute "wfu-data-poster-url" e)) e.

(** The document is the list of its elements in document order;
    [querySelectorAll] gives a static list of the selected ones. *)
Definition processAllDataPosterUrls (doc : list Element) : list Element :=
  map (λ e, if selected e then mirror e else e) doc.

End WebflowVideo.

(** ** src/modules/webflow-track.js *)

Module WfuTracker.

Record Config : Type := mkConfig {
  method : string;
  prefix : string
}.

Definition defaultConfig : Config :=
  mkConfig "sessionStorage" "track".

(** [$.extend({}, defaultConfig, config)]: an option the caller left out
    keeps its default. *)
Definition new (m p : option string) : Config :=
  mkConfig (default (method defaultConfig) m)
           (default (prefix defaultConfig) p).

Inductive Method : Type := SessionStorage | LocalStorage | Cookies | Other.

(** The [switch (this.config.method)] of every operation. *)
Definition switch (cfg : Config) : Method :=
  if String.eqb (method cfg) "sessionStorage" then SessionStorage
  else if String.eqb (method cfg) "localStorage" then LocalStorage
  else if String.eqb (method cfg) "cookies" then Cookies
  else Other.

Definition trackKey (cfg : Config) (key : string) : string :=
  prefix cfg +:+ "_" +:+ key.

Definition track (cfg : Config) (key : string) (val : option string)
    (b : Browser) : Browser :=
  match switch cfg with
  | SessionStorage =>
      set_session (<[trackKey cfg key := or_true val]> (sessionStorage b)) b
  | LocalStorage =>
      set_local (<[trackKey cfg key := or_true val]> (localStorage b)) b
  | Cookies =>
      set_document_cookie
        (prefix cfg +:+ "_" +:+ key +:+ "=" +:+ or_true val) b
  | Other => b
  end.

Definition untrack (cfg : Config) (key : string) (b : Browser) : Browser :=
  match switch cfg with
  | SessionStorage =>
      set_session (delete (trackKey cfg key) (sessionStorage b)) b
  | LocalStorage =>
      set_local (delete (trackKey cfg key) (localStorage b)) b
  | Cookies =>
      set_document_cookie
        (trackKey cfg key +:+ "= ; expires = Thu, 01 Jan 1970 00:00:00 GMT") b
  | Other => b
  end.

(** [document.cookie.split('; ').find(...)?.split('=')[1]] *)
Definition cookie_lookup (cfg : Config) (key : string) (b : Browser)
  : option string :=
  match List.find (λ r, startsWith r (trackKey cfg key))
                  (split "; " (document_cookie b)) with
  | Some r => split "=" r !! 1%nat
  | None => None
  end.

(** [None] stands for the [null] of a storage and for [undefined]. *)
Definition isTracked (cfg : Config) (key : string) (b : Browser)
  : option string :=
  match switch cfg with
  | SessionStorage => storage_getItem (sessionStorage b) (trackKey cfg key)
  | LocalStorage => storage_getItem (localStorage b) (trackKey cfg key)
  | Cookies => cookie_lookup cfg key b
  | Other => None
  end.

Definition getItem (cfg : Config) (key : string) (b : Browser)
  : option string :=
  match switch cfg with
  | SessionStorage => storage_getItem (sessionStorage b) (trackKey cfg key)
  | LocalStorage => storage_getItem (localStorage b) (trackKey cfg key)
  | Cookies => cookie_lookup cfg key b
  | Other => None
  end.

(** One turn of the loop over [arrSplit]. *)
Definition reset_step (cfg : Config) (b : Browser) (item : string)
  : Browser :=
  let cookie := trim item in
  let cookieName := hd "" (split "=" cookie) in
  if startsWith cookieName (prefix cfg +:+ "_")
  then set_document_cookie
         (cookieName +:+ "=;expires=Thu, 01 Jan 1970 00:00:00 GMT") b
  else b.

Definition reset (cfg : Config) (b : Browser) : Browser :=
  match switch cfg with
  | SessionStorage => set_session ∅ b
  | LocalStorage => set_local ∅ b
  | Cookies =>
      let arrSplit := split ";" (document_cookie b) in
      fold_left (reset_step cfg) arrSplit b
  | Other => b
  end.

End WfuTracker.

(** What the cookie store asks of a flag for it to read back: a well-formed
    jar, a namespaced key that is a cookie name as the platform keeps it, a
    value ([val || "true"]) free of [;], of [=], of control characters and
    of white space around it, and no other cookie whose name starts with the
    namespaced key. *)
Definition cookie_trackable (cfg : WfuTracker.Config) (key : string)
    (val : option string) (b : Browser) : Prop :=
  jar_ok (cookies b) ∧
  name_ok (WfuTracker.trackKey cfg key) ∧
  has_char ";" (or_true val) = false ∧
  has_char "=" (or_true val) = false ∧
  has_ctl (or_true val) = false ∧
  trim (or_true val) = or_true val ∧
  ∀ c, c ∈ cookies b →
       startsWith c.1 (WfuTracker.trackKey cfg key) = true →
       c.1 = WfuTracker.trackKey cfg key.

(** ** src/webflow-membership.ts *)

(** What the platform and the missing [Sa5User] class do to a profile on its
    way to and from the session storage: [btoa] and [atob], and
    [JSON.stringify] of a profile with, on the way back, [JSON.parse]
    followed by [Sa5User.fromJSON]. A [None] is a thrown exception. *)
Class Platform : Type := {
  btoa : string → string;
  atob : string → option string;
  JSON_stringify : Sa5User → string;
  JSON_parse_user : string → option Sa5User
}.

(** What the proofs ask of a platform: a profile as [saveUserInfoCache]
    writes it is a non-empty string, and [loadUserInfoCache] decodes it to
    the profile that was written. *)
Definition stored_truthy `{Platform} : Prop :=
  ∀ u : Sa5User, btoa (JSON_stringify u) ≠ "".
Definition stored_roundtrip `{Platform} : Prop :=
  ∀ u : Sa5User, atob (btoa (JSON_stringify u)) ≫= JSON_parse_user = Some u.

Module Sa5Membership.

(** [const StorageKeys] *)
Definition StorageKeys_user : string := "wfuUser".
Definition StorageKeys_userKey : string := "wfuUserKey".

(** The options that decide what a merge does: whether an update callback
    is configured (by the caller or through the global handler
    [userInfoChanged]) and whether merges data-bind. [debug] and the two
    delays only trace and schedule. *)
Record Config : Type := mkConfig {
  userInfoUpdatedCallback : bool;
  dataBind : bool
}.

(** Modelled from the spec: [getCookie] of ./utils is not among the
    sources. It reads the named cookie; an absent cookie gives a falsy
    answer. *)
Definition getCookie (n : string) (b : Browser) : JsValue :=
  match List.find (λ c, String.eqb c.1 n) (cookies b) with
  | Some c => JsString c.2
  | None => JsUndefined
  end.

(** [getCookie("wf_loggedin") || false] *)
Definition isLoggedIn (b : Browser) : JsValue :=
  js_or (getCookie "wf_loggedin" b) (JsBool false).

(** [this.isLoggedIn] without a call: the method itself. *)
Definition isLoggedIn_ref : JsValue := JsFunction.

Definition clearUserInfo (b : Browser) : Browser :=
  let b := set_session (delete StorageKeys_user (sessionStorage b)) b in
  set_local (delete StorageKeys_userKey (localStorage b)) b.

(** The submit listener [init] installs on a login form, run with the
    value of the form's e-mail input. *)
Definition loginFormSubmit `{Platform} (userEmail : string) (b : Browser)
  : Browser :=
  let userKey := btoa userEmail in
  set_local (<["StorageKeys.userKey" := userKey]> (localStorage b)) b.

(** [None] is [undefined]. *)
Definition getUserKey `{Platform} (b : Browser)
  : Completion (option string) :=
  let userKeyEncoded := storage_getItem (localStorage b) StorageKeys_userKey in
  if truthy_item userKeyEncoded then
    match atob (default "" userKeyEncoded) with
    | Some k => Normal (Some k)
    | None => Throw
    end
  else Normal None.

(** [None] is [null]. *)
Definition loadUserInfoCache `{Platform} (b : Browser)
  : Completion (option Sa5User) :=
  if negb (truthy isLoggedIn_ref) then Normal None
  else
    let userInfo := storage_getItem (sessionStorage b) StorageKeys_user in
    if negb (truthy_item userInfo) then Normal None
    else
      match atob (default "" userInfo) ≫= JSON_parse_user with
      | Some user => Normal (Some user)
      | None => Throw
      end.

(** The "smart merge" and the coalescing of the loaded flags in
    [saveUserInfoCache]. *)
Definition merge (userData newUserData : Sa5User) : Sa5User :=
  let nl := user_data_loaded newUserData in
  let userData :=
    if fl_email nl
    then mkUser (email newUserData) (name userData)
           (accept_communications userData) (data userData)
           (user_data_loaded userData)
    else userData in
  let userData :=
    if fl_account_info nl
    then mkUser (email newUserData) (name newUserData)
           (accept_communications newUserData) (data userData)
           (user_data_loaded userData)
    else userData in
  let userData :=
    if fl_custom_fields nl
    then mkUser (email userData) (name userData)
           (accept_communications userData) (data newUserData)
           (user_data_loaded userData)
    else userData in
  let ul := user_data_loaded userData in
  mkUser (email userData) (name userData) (accept_communications userData)
    (data userData)
    (mkFlags (fl_email ul || fl_email nl)
             (fl_account_info ul || fl_account_info nl)
             (fl_custom_fields ul || fl_custom_fields nl)
             (fl_access_groups ul || fl_access_groups nl)).

Definition saveUserInfoCache `{Platform} (cfg : Config)
    (newUserData : Sa5User) (b : Browser) : Completion JsValue * Browser :=
  if negb (truthy isLoggedIn_ref) then (Normal JsNull, b)
  else
    match loadUserInfoCache b with
    | Throw => (Throw, b)
    | Normal cached =>
        let userData := merge (default blank_user cached) newUserData in
        let b :=
          set_session
            (<[StorageKeys_user := btoa (JSON_stringify userData)]>
               (sessionStorage b)) b in
        let b := if dataBind cfg then emit (EvDataBind userData) b else b in
        let b :=
          if userInfoUpdatedCallback cfg
          then emit (EvCallback userData) b else b in
        (Normal JsUndefined, b)
    end.

(** The whole of [loadUserInfoAsync_loginInfo], through its [await]. An
    exception of [getUserKey] or of [saveUserInfoCache] is the exception of
    the call (its promise rejects). *)
Definition loadUserInfoAsync_loginInfo `{Platform} (cfg : Config)
    (b : Browser) : Completion JsValue * Browser :=
  let user :=
    mkUser None None None ∅ (mkFlags true false false false) in
  match getUserKey b with
  | Throw => (Throw, b)
  | Normal None | Normal (Some "") => (Normal JsUndefined, b)
  | Normal (Some userKey) =>
      let user :=
        mkUser (Some userKey) (name user) (accept_communications user)
          (data user) (user_data_loaded user) in
      let saved := saveUserInfoCache cfg user b in
      (match saved.1 with
       | Throw => Throw
       | Normal _ => Normal JsUndefined
       end, saved.2)
  end.

(** [loadUserInfoAsync] up to the point where no microtask is left: the
    three fetches are launched without being awaited, the login-key fetch
    then runs to its end (a rejection of its promise is not observed), and
    the account scrape, which completes in later tasks of the frame, is
    recorded as launched. *)
Definition loadUserInfoAsync `{Platform} (cfg : Config) (b : Browser)
  : Browser :=
  if negb (truthy (isLoggedIn b)) then clearUserInfo b
  else
    let b := set_session (delete StorageKeys_user (sessionStorage b)) b in
    let b := emit (EvLaunch LoginInfo) b in
    let b := emit (EvLaunch AccountInfo) b in
    let b := emit (EvLaunch AccessGroups) b in
    (loadUserInfoAsync_loginInfo cfg b).2.

Definition readyUserInfo `{Platform} (cfg : Config) (b : Browser)
  : Completion JsValue * Browser :=
  if negb (truthy (isLoggedIn b)) then (Normal JsUndefined, clearUserInfo b)
  else
    match loadUserInfoCache b with
    | Throw => (Throw, b)
    | Normal (Some user) =>
        let b := if dataBind cfg then emit (EvDataBind user) b else b in
        let b :=
          if userInfoUpdatedCallback cfg
          then emit (EvCallback user) b else b in
        (Normal JsUndefined, b)
    | Normal None => (Normal JsUndefined, loadUserInfoAsync cfg b)
    end.

End Sa5Membership.

(** *** The account scrape: what [loadUserInfoAsync_accountInfo] does once
    the e-mail field of the hidden frame has changed and the delay is over *)

Module AccountInfo.

(** An element of the account page with what the scrape reads of it beyond
    its attributes, the properties [value] and [checked]. The source reads
    both through an unchecked cast to [HTMLInputElement], so the element
    need not be a form control: a property the element does not have is
    [None] ([undefined]). A profile holds strings and booleans; a [value]
    that is a number, as an [li] or a [meter] element has one, is outside
    the model. *)
Record Control : Type := mkControl {
  element : Element;
  value : option string;
  checked : option bool
}.

(** [user.data[id] = x]. A key that is assigned [undefined] reads as
    [undefined] afterwards and is left out of the text [JSON.stringify]
    gives, as a key that is not there: the map keeps no entry for it. *)
Definition assign (id : string) (x : option (string + bool))
    (data : gmap string (string + bool)) : gmap string (string + bool) :=
  match x with
  | Some x => <[id := x]> data
  | None => delete id data
  end.

(** [element.id]: the [id] attribute, empty when there is none. *)
Definition element_id (c : Control) : string :=
  default "" (getAttribute "id" (element c)).

(** [doc.querySelector("[data-wf-user-field='wf-user-field-name']")] *)
Definition userNameElement (doc : list Control) : option Control :=
  List.find
    (λ c, bool_decide (getAttribute "data-wf-user-field" (element c)
                       = Some "wf-user-field-name")) doc.

(** [doc.querySelector("#wf-user-account-accept-communications")] *)
Definition acceptCommunicationsCheckbox (doc : list Control)
  : option Control :=
  List.find
    (λ c, bool_decide (getAttribute "id" (element c)
                       = Some "wf-user-account-accept-communications")) doc.

(** [doc.querySelectorAll("[data-wf-user-field]")] *)
Definition userDataFields (doc : list Control) : list Control :=
  List.filter (λ c, hasAttribute "data-wf-user-field" (element c)) doc.

(** The body of [userDataFields.forEach]: what one field does to
    [user.data]. *)
Definition field_step (data : gmap string (string + bool)) (c : Control)
  : gmap string (string + bool) :=
  let id := element_id c in
  let fieldType := getAttribute "data-wf-user-field-type" (element c) in
  let val := value c in
  if String.eqb id "" then data
  else if startsWith id "wf-user-account-" then data
  else
    match fieldType with
    | Some t =>
        if String.eqb t "PlainText" || String.eqb t "Email"
           || String.eqb t "Link" || String.eqb t "Option"
        then assign id (inl <$> val) data
        else if String.eqb t "Number" then assign id (inl <$> val) data
        else if String.eqb t "Bool" then assign id (inr <$> checked c) data
        else data
    | None => data
    end.

(** The user object created when the frame has loaded. *)
Definition new_user : Sa5User :=
  mkUser None None None ∅ (mkFlags true true true false).

(** The body of the delayed callback up to the save. [user] is the object
    the listener closes over, so what an earlier run of the callback put
    into it is still there; [doc] is [None] when the frame has no document
    any more. *)
Definition fill (user : Sa5User) (userAccountEmailInput : Control)
    (doc : option (list Control)) : Sa5User :=
  let userKey := value userAccountEmailInput in
  let user :=
    mkUser userKey (name user) (accept_communications user)
      (data user) (user_data_loaded user) in
  match doc with
  | None => user
  | Some doc =>
      let user :=
        match userNameElement doc with
        | Some el =>
            mkUser (email user) (value el)
              (accept_communications user) (data user)
              (user_data_loaded user)
        | None => user
        end in
      let user :=
        match acceptCommunicationsCheckbox doc with
        | Some el =>
            mkUser (email user) (name user) (checked el)
              (data user) (user_data_loaded user)
        | None => user
        end in
      mkUser (email user) (name user) (accept_communications user)
        (fold_left field_step (userDataFields doc) (data user))
        (user_data_loaded user)
  end.

(** The delayed callback: fill the user object and cache it. The pair is
    the user object as it is afterwards and the browser. *)
Definition loaded `{Platform} (cfg : Sa5Membership.Config) (user : Sa5User)
    (userAccountEmailInput : Control) (doc : option (list Control))
    (b : Browser) : Sa5User * Browser :=
  let user := fill user userAccountEmailInput doc in
  (user, (Sa5Membership.saveUserInfoCache cfg user b).2).

End AccountInfo.

(** *** Sessions of merges *)

Inductive Flag : Type := FEmail | FAccountInfo | FCustomFields | FAccessGroups.

Definition flag (f : Flag) (l : LoadedFlags) : bool :=
  match f with
  | FEmail => fl_email l
  | FAccountInfo => fl_account_info l
  | FCustomFields => fl_custom_fields l
  | FAccessGroups => fl_access_groups l
  end.

(** The flag as it stands on the persisted profile; no profile, no flag. *)
Definition persisted_flag `{Platform} (f : Flag) (b : Browser) : bool :=
  match Sa5Membership.loadUserInfoCache b with
  | Normal (Some u) => flag f (user_data_loaded u)
  | _ => false
  end.

(** A run of [saveUserInfoCache] calls, one per partial profile. *)
Definition merges `{Platform} (cfg : Sa5Membership.Config)
    (partials : list Sa5User) (b : Browser) : Browser :=
  fold_left (λ b u, (Sa5Membership.saveUserInfoCache cfg u b).2) partials b.

(** What a page that uses the module can do to the browser, one call at a
    time. *)
Inductive step `{Platform} (cfg : Sa5Membership.Config)
  : Browser → Browser → Prop :=
  | step_submit (userEmail : string) (b : Browser) :
      step cfg b (Sa5Membership.loginFormSubmit userEmail b)
  | step_ready (b : Browser) :
      step cfg b (Sa5Membership.readyUserInfo cfg b).2
  | step_load (b : Browser) :
      step cfg b (Sa5Membership.loadUserInfoAsync cfg b)
  | step_save (u : Sa5User) (b : Browser) :
      step cfg b (Sa5Membership.saveUserInfoCache cfg u b).2
  | step_clear (b : Browser) :
      step cfg b (Sa5Membership.clearUserInfo b).

(** The two partial profiles share no loaded flag. *)
Definition disjoint_flags (a b : Sa5User) : Prop :=
  ∀ f, flag f (user_data_loaded a) && flag f (user_data_loaded b) = false.

(** The profiles handed to the update callback, and the fetches launched,
    in a stretch of the log. *)
Definition callback_calls (l : list Event) : list Sa5User :=
  omap (λ e, match e with EvCallback u => Some u | _ => None end) l.
Definition launched (l : list Event) : list Fetch :=
  omap (λ e, match e with EvLaunch f => Some f | _ => None end) l.
Definition databind_calls (l : list Event) : list Sa5User :=
  omap (λ e, match e with EvDataBind u => Some u | _ => None end) l.

(** *** A reference platform

    A transparent codec that satisfies the two laws the proofs ask of a
    platform (a stored profile reads back as it was written, and is never the
    empty string): the profile is numbered through its [Countable] structure
    and the number written in binary after an opening brace. *)

Module Reference.

Fixpoint pos_to_string (p : positive) : string :=
  match p with
  | xH => ""
  | xO p => String "0" (pos_to_string p)
  | xI p => String "1" (pos_to_string p)
  end.

Fixpoint string_to_pos (s : string) : option positive :=
  match s with
  | "" => Some xH
  | String c s' =>
      if Ascii.eqb c "0" then xO <$> string_to_pos s'
      else if Ascii.eqb c "1" then xI <$> string_to_pos s'
      else None
  end.

Definition Fields : Type :=
  option string * option string * option bool * gmap string (string + bool)
  * (bool * bool * bool * bool).

Definition fields (u : Sa5User) : Fields :=
  let l := user_data_loaded u in
  (email u, name u, accept_communications u, data u,
   (fl_email l, fl_account_info l, fl_custom_fields l, fl_access_groups l)).

Definition of_fields (t : Fields) : Sa5User :=
  let '(e, n, a, d, (f1, f2, f3, f4)) := t in
  mkUser e n a d (mkFlags f1 f2 f3 f4).

Definition stringify (u : Sa5User) : string :=
  String "{" (pos_to_string (encode (fields u))).

Definition parse (s : string) : option Sa5User :=
  match s with
  | String c s' =>
      if Ascii.eqb c "{"
      then of_fields <$> (string_to_pos s' ≫= decode)
      else None
  | "" => None
  end.

#[export] Instance platform : Platform := {|
  btoa := λ s, s;
  atob := Some;
  JSON_stringify := stringify;
  JSON_parse_user := parse
|}.

End Reference.

(** *** Sample data *)

Module Sample.

Definition cfg : Sa5Membership.Config := Sa5Membership.mkConfig true true.

(** A profile as the account scrape leaves it. *)
Definition scraped : Sa5User :=
  mkUser (Some "old@example.com") (Some "Alice") (Some true)
    {[ "plan" := inl "gold" ]} (mkFlags false true true false).

(** Partial profiles of one data layer each. *)
Definition login_alice : Sa5User :=
  mkUser (Some "alice@example.com") None None ∅
    (mkFlags true false false false).
Definition account_bob : Sa5User :=
  mkUser (Some "bob@example.com") (Some "Bob") None ∅
    (mkFlags false true false false).
Definition fields_only : Sa5User :=
  mkUser None None None {[ "newsletter" := inr true ]}
    (mkFlags false false true false).

Definition fresh : Browser := mkBrowser ∅ ∅ [] [].

(** Logged in, with [scraped] in the session storage of the reference
    platform. *)
Definition cached : Browser :=
  mkBrowser {[ "wfuUser" := Reference.stringify scraped ]} ∅
    [("wf_loggedin", "true")] [].

(** Logged out, with leftovers of an earlier session. *)
Definition stale : Browser :=
  mkBrowser {[ "wfuUser" := Reference.stringify scraped ]}
    {[ "wfuUserKey" := "YWxpY2VAZXhhbXBsZS5jb20=" ]} [("theme", "dark")] [].

Definition cookie_tracker : WfuTracker.Config :=
  WfuTracker.new (Some "cookies") None.
Definition session_tracker : WfuTracker.Config :=
  WfuTracker.new None None.
Definition local_tracker : WfuTracker.Config :=
  WfuTracker.new (Some "localStorage") (Some "flags").

(** A jar with cookies of the tracker and of others. *)
Definition jar : Browser :=
  mkBrowser {[ "cart" := "3" ]} {[ "lang" := "en" ]}
    [("theme", "dark"); ("track_seen", "true"); ("tracker", "1");
     ("track_ab", "x")] [].

Definition themed : Browser :=
  mkBrowser ∅ ∅ [("theme", "dark")] [].

End Sample.

(** *** A sample account page and more sample browsers *)

Module SamplePage.
Import AccountInfo.

Definition emailInput : Control :=
  mkControl
    (mkElement "input" [("id", "wf-user-account-email"); ("type", "email")])
    (Some "alice@example.com") (Some false).

Definition nameInput : Control :=
  mkControl
    (mkElement "input"
       [("id", "wf-user-account-name");
        ("data-wf-user-field", "wf-user-field-name");
        ("data-wf-user-field-type", "PlainText")])
    (Some "Alice") (Some false).

Definition planSelect : Control :=
  mkControl
    (mkElement "select"
       [("id", "plan"); ("data-wf-user-field", "f_1");
        ("data-wf-user-field-type", "Option")])
    (Some "gold") None.

Definition newsletterBox : Control :=
  mkControl
    (mkElement "input"
       [("id", "newsletter"); ("data-wf-user-field", "f_2");
        ("data-wf-user-field-type", "Bool")])
    (Some "on") (Some true).

Definition avatarFile : Control :=
  mkControl
    (mkElement "input"
       [("id", "avatar"); ("data-wf-user-field", "f_3");
        ("data-wf-user-field-type", "FileRef")])
    (Some "C:/fakepath/me.png") (Some false).

(** A [div] tagged as a field: it has neither [value] nor [checked]. *)
Definition noteDiv : Control :=
  mkControl
    (mkElement "div"
       [("id", "note"); ("data-wf-user-field", "f_4");
        ("data-wf-user-field-type", "PlainText")])
    None None.

(** A [div] that shares its [id] with [planSelect]. *)
Definition planDiv : Control :=
  mkControl
    (mkElement "div"
       [("id", "plan"); ("data-wf-user-field", "f_5");
        ("data-wf-user-field-type", "PlainText")])
    None None.

Definition page : list Control :=
  [emailInput; nameInput; planSelect; newsletterBox; avatarFile; noteDiv].

(** The user object after a first run of the callback on [page]. *)
Definition filled : Sa5User := fill new_user emailInput (Some page).

(** Logged in, the identity key stored as the reference platform encodes
    it. *)
Definition keyed : Browser :=
  mkBrowser {[ "wfuUser" := Reference.stringify Sample.scraped ]}
    {[ "wfuUserKey" := "alice@example.com" ]} [("wf_loggedin", "true")] [].

(** Logged in, nothing stored. *)
Definition arrived : Browser :=
  mkBrowser ∅ ∅ [("wf_loggedin", "true")] [].

(** Logged in, with a stored profile that does not decode. *)
Definition corrupt : Browser :=
  mkBrowser {[ "wfuUser" := "garbage" ]} ∅ [("wf_loggedin", "true")] [].

Definition odd_tracker : WfuTracker.Config :=
  WfuTracker.new (Some "indexedDB") None.

End SamplePage.

(** ** Facts about the membership cache *)

Section Membership.
Import Sa5Membership.
Context `{P : Platform}.

Lemma truthy_item_Some (s : string) : s ≠ "" → truthy_item (Some s) = true.
Proof. by destruct s. Qed.

Lemma loadUserInfoCache_session (b b' : Browser) :
  sessionStorage b' = sessionStorage b →
  loadUserInfoCache b' = loadUserInfoCache b.
Proof. intros E. unfold loadUserInfoCache. by rewrite E. Qed.

Lemma loadUserInfoCache_stored (u : Sa5User) (b : Browser) :
  stored_truthy → stored_roundtrip →
  sessionStorage b !! StorageKeys_user = Some (btoa (JSON_stringify u)) →
  loadUserInfoCache b = Normal (Some u).
Proof.
  intros Ht Hr E. unfold loadUserInfoCache, storage_getItem. rewrite E.
  cbn [isLoggedIn_ref truthy negb]. rewrite truthy_item_Some by apply Ht.
  simpl. by rewrite Hr.
Qed.

(** The guard of [saveUserInfoCache] and [loadUserInfoCache] tests the
    method, not its result, and never fires. *)
Lemma saveUserInfoCache_unfold cfg newUserData b :
  saveUserInfoCache cfg newUserData b =
    match loadUserInfoCache b with
    | Throw => (Throw, b)
    | Normal cached =>
        let userData := merge (default blank_user cached) newUserData in
        let b1 :=
          set_session
            (<[StorageKeys_user := btoa (JSON_stringify userData)]>
               (sessionStorage b)) b in
        let b2 := if dataBind cfg then emit (EvDataBind userData) b1 else b1 in
        (Normal JsUndefined,
         if userInfoUpdatedCallback cfg
         then emit (EvCallback userData) b2 else b2)
    end.
Proof. reflexivity. Qed.

Lemma saveUserInfoCache_throw cfg newUserData b :
  loadUserInfoCache b = Throw →
  saveUserInfoCache cfg newUserData b = (Throw, b).
Proof. intros E. by rewrite saveUserInfoCache_unfold, E. Qed.

Lemma saveUserInfoCache_session cfg newUserData cached b :
  loadUserInfoCache b = Normal cached →
  sessionStorage (saveUserInfoCache cfg newUserData b).2 =
    <[StorageKeys_user :=
        btoa (JSON_stringify (merge (default blank_user cached) newUserData))]>
      (sessionStorage b).
Proof.
  intros E. rewrite saveUserInfoCache_unfold, E. cbn zeta.
  by destruct (dataBind cfg), (userInfoUpdatedCallback cfg).
Qed.

Lemma saveUserInfoCache_local cfg newUserData b :
  localStorage (saveUserInfoCache cfg newUserData b).2 = localStorage b.
Proof.
  rewrite saveUserInfoCache_unfold. destruct (loadUserInfoCache b); [|done].
  cbn zeta. by destruct (dataBind cfg), (userInfoUpdatedCallback cfg).
Qed.

Lemma saveUserInfoCache_cookies cfg newUserData b :
  cookies (saveUserInfoCache cfg newUserData b).2 = cookies b.
Proof.
  rewrite saveUserInfoCache_unfold. destruct (loadUserInfoCache b); [|done].
  cbn zeta. by destruct (dataBind cfg), (userInfoUpdatedCallback cfg).
Qed.

Lemma saveUserInfoCache_result cfg newUserData cached b :
  loadUserInfoCache b = Normal cached →
  (saveUserInfoCache cfg newUserData b).1 = Normal JsUndefined.
Proof. intros E. by rewrite saveUserInfoCache_unfold, E. Qed.

Lemma loadUserInfoCache_saved cfg newUserData cached b :
  stored_truthy → stored_roundtrip →
  loadUserInfoCache b = Normal cached →
  loadUserInfoCache (saveUserInfoCache cfg newUserData b).2 =
    Normal (Some (merge (default blank_user cached) newUserData)).
Proof.
  intros Ht Hr E. apply loadUserInfoCache_stored; [done..|].
  rewrite (saveUserInfoCache_session _ _ _ _ E). apply lookup_insert_eq.
Qed.

End Membership.

(** The reference platform keeps the two laws. *)
Section ReferencePlatform.
Import Reference.

Lemma string_to_pos_to_string (p : positive) :
  string_to_pos (pos_to_string p) = Some p.
Proof. induction p as [p IH|p IH|]; simpl; by rewrite ?IH. Qed.

Lemma reference_truthy : @stored_truthy platform.
Proof. intros u. discriminate. Qed.

Lemma reference_roundtrip : @stored_roundtrip platform.
Proof.
  intros u. simpl. rewrite string_to_pos_to_string. simpl.
  rewrite decode_encode. simpl. by destruct u as [? ? ? ? []].
Qed.

End ReferencePlatform.

Section MergeFacts.
Import Sa5Membership.

(** The merge, field by field. *)
Lemma merge_fields (cached partial : Sa5User) :
  let cl := user_data_loaded cached in
  let pl := user_data_loaded partial in
  merge cached partial =
    mkUser
      (if fl_email pl || fl_account_info pl
       then email partial else email cached)
      (if fl_account_info pl then name partial else name cached)
      (if fl_account_info pl
       then accept_communications partial
       else accept_communications cached)
      (if fl_custom_fields pl then data partial else data cached)
      (mkFlags (fl_email cl || fl_email pl)
               (fl_account_info cl || fl_account_info pl)
               (fl_custom_fields cl || fl_custom_fields pl)
               (fl_access_groups cl || fl_access_groups pl)).
Proof.
  destruct cached as [ce cn ca cd cl], partial as [pe pn pa pd [p1 p2 p3 p4]].
  by destruct p1, p2, p3.
Qed.

(** The flags of a merge are the flag-wise disjunction. *)
Lemma flag_merge (f : Flag) (cached partial : Sa5User) :
  flag f (user_data_loaded (merge cached partial)) =
    flag f (user_data_loaded cached) || flag f (user_data_loaded partial).
Proof. rewrite merge_fields. by destruct f. Qed.

(** Two merges in a row commute when the partial profiles share no flag
    and agree on the e-mail that the [email] and the [account_info] layer
    both write. *)
Lemma merge_merge_comm (c p q : Sa5User) :
  disjoint_flags p q →
  (fl_email (user_data_loaded p) && fl_account_info (user_data_loaded q)
   || fl_account_info (user_data_loaded p) && fl_email (user_data_loaded q)
     = true → email p = email q) →
  merge (merge c p) q = merge (merge c q) p.
Proof.
  intros D E.
  pose proof (D FEmail) as D1. pose proof (D FAccountInfo) as D2.
  pose proof (D FCustomFields) as D3. clear D.
  rewrite !merge_fields. simpl in *.
  destruct (user_data_loaded p) as [p1 p2 p3 p4],
           (user_data_loaded q) as [q1 q2 q3 q4],
           (user_data_loaded c) as [c1 c2 c3 c4].
  simpl in *. f_equal.
  - destruct p1, p2, q1, q2; simpl in *; try done; by rewrite E.
  - by destruct p2, q2.
  - by destruct p2, q2.
  - by destruct p3, q3.
  - f_equal; rewrite <- !orb_assoc; f_equal; apply orb_comm.
Qed.

End MergeFacts.

(** ** The claims about the membership cache *)

Section MembershipClaims.
Import Sa5Membership.
Context `{P : Platform}.

(** C1. Merging a partial profile whose loaded flags have only [email]
    set into a cached profile whose [account_info] flag is set persists a
    profile with both flags set, the e-mail of the partial profile, and
    the name and the consent (and custom fields) of the cached one. *)
Theorem merge_email_into_account_info
    (cfg : Config) (partial cached : Sa5User) (b : Browser) :
  stored_truthy → stored_roundtrip →
  loadUserInfoCache b = Normal (Some cached) →
  user_data_loaded partial = mkFlags true false false false →
  fl_account_info (user_data_loaded cached) = true →
  ∃ merged : Sa5User,
    (saveUserInfoCache cfg partial b).1 = Normal JsUndefined ∧
    sessionStorage (saveUserInfoCache cfg partial b).2 !! StorageKeys_user
      = Some (btoa (JSON_stringify merged)) ∧
    loadUserInfoCache (saveUserInfoCache cfg partial b).2
      = Normal (Some merged) ∧
    fl_email (user_data_loaded merged) = true ∧
    fl_account_info (user_data_loaded merged) = true ∧
    email merged = email partial ∧
    name merged = name cached ∧
    accept_communications merged = accept_communications cached ∧
    data merged = data cached.
Proof.
  intros Ht Hr Hc Hp Ha. exists (merge cached partial).
  split; [by eapply saveUserInfoCache_result|].
  split; [rewrite (saveUserInfoCache_session _ _ _ _ Hc);
          apply lookup_insert_eq|].
  split; [by rewrite (loadUserInfoCache_saved _ _ _ _ Ht Hr Hc)|].
  unfold merge. rewrite Hp. simpl. rewrite Ha.
  repeat split; by rewrite ?orb_true_r.
Qed.

Lemma persisted_flag_save (cfg : Config) (f : Flag) (u : Sa5User)
    (b : Browser) :
  stored_truthy → stored_roundtrip →
  persisted_flag f b = true →
  persisted_flag f (saveUserInfoCache cfg u b).2 = true.
Proof.
  intros Ht Hr. unfold persisted_flag at 1.
  destruct (loadUserInfoCache b) as [[c|]|] eqn:E; try done.
  intros Hf. unfold persisted_flag.
  rewrite (loadUserInfoCache_saved _ _ _ _ Ht Hr E).
  change (default blank_user (Some c)) with c.
  by rewrite flag_merge, Hf.
Qed.

Lemma persisted_flag_merges (cfg : Config) (f : Flag) (us : list Sa5User)
    (b : Browser) :
  stored_truthy → stored_roundtrip →
  persisted_flag f b = true →
  persisted_flag f (merges cfg us b) = true.
Proof.
  intros Ht Hr. revert b.
  induction us as [|u us IH]; intros b Hf; [done|].
  simpl. apply IH. by apply persisted_flag_save.
Qed.

Lemma persisted_flag_clear (f : Flag) (b : Browser) :
  persisted_flag f (clearUserInfo b) = false.
Proof.
  unfold persisted_flag, loadUserInfoCache, clearUserInfo, storage_getItem.
  simpl. by rewrite lookup_delete_eq.
Qed.

(** C2. Along any run of merges each loaded flag of the persisted profile
    is monotonic: a flag that is set after some merge is still set after
    every later merge; [clearUserInfo] is what takes it away. *)
Theorem loaded_flags_monotonic
    (cfg : Config) (f : Flag) (before later : list Sa5User) (b : Browser) :
  stored_truthy → stored_roundtrip →
  persisted_flag f (merges cfg before b) = true →
  persisted_flag f (merges cfg (before ++ later)%list b) = true ∧
  persisted_flag f (clearUserInfo (merges cfg (before ++ later)%list b))
    = false.
Proof.
  intros Ht Hr Hf. split; [|apply persisted_flag_clear].
  unfold merges. rewrite fold_left_app. by apply persisted_flag_merges.
Qed.

(** C3, as amended. Two merges of partial profiles that share no loaded
    flag leave the same persisted state in either order, provided the two
    carry the same e-mail when one has the [email] flag and the other the
    [account_info] flag: the [account_info] layer writes the e-mail too. *)
Theorem merges_commute
    (cfg : Config) (p q : Sa5User) (b : Browser) :
  stored_truthy → stored_roundtrip →
  disjoint_flags p q →
  (fl_email (user_data_loaded p) && fl_account_info (user_data_loaded q)
   || fl_account_info (user_data_loaded p) && fl_email (user_data_loaded q)
     = true → email p = email q) →
  sessionStorage (merges cfg [p; q] b) = sessionStorage (merges cfg [q; p] b)
  ∧ localStorage (merges cfg [p; q] b) = localStorage (merges cfg [q; p] b)
  ∧ cookies (merges cfg [p; q] b) = cookies (merges cfg [q; p] b).
Proof.
  intros Ht Hr D E. unfold merges. cbn [fold_left].
  split; [|by rewrite !saveUserInfoCache_local, !saveUserInfoCache_cookies].
  destruct (loadUserInfoCache b) as [c|] eqn:Hc.
  - pose proof (loadUserInfoCache_saved cfg p _ _ Ht Hr Hc) as Hp.
    pose proof (loadUserInfoCache_saved cfg q _ _ Ht Hr Hc) as Hq.
    rewrite (saveUserInfoCache_session _ _ _ _ Hp).
    rewrite (saveUserInfoCache_session _ _ _ _ Hq).
    rewrite !(saveUserInfoCache_session _ _ _ _ Hc).
    rewrite !insert_insert_eq.
    change (default blank_user (Some ?u)) with u.
    by rewrite (merge_merge_comm _ _ _ D E).
  - rewrite (saveUserInfoCache_throw cfg p b Hc),
      (saveUserInfoCache_throw cfg q b Hc). cbn [snd].
    by rewrite (saveUserInfoCache_throw cfg p b Hc),
      (saveUserInfoCache_throw cfg q b Hc).
Qed.

(** C4. The guard of [saveUserInfoCache] does not hold a merge back while
    nobody is logged in: with no cookie at all and empty storage the
    partial profile is merged into a blank one and persisted. *)
Theorem saveUserInfoCache_logged_out (cfg : Config) :
  let b := mkBrowser ∅ ∅ [] [] in
  let partial :=
    mkUser (Some "a@b.c") None None ∅ (mkFlags true false false false) in
  isLoggedIn b = JsBool false ∧
  (saveUserInfoCache cfg partial b).1 = Normal JsUndefined ∧
  sessionStorage (saveUserInfoCache cfg partial b).2 !! StorageKeys_user
    = Some (btoa (JSON_stringify partial)).
Proof.
  intros b partial. split; [done|]. split; [done|].
  rewrite (saveUserInfoCache_session cfg partial None b) by done.
  apply lookup_insert_eq.
Qed.

(** C5. When nobody is logged in, [readyUserInfo] leaves neither the
    persisted profile nor the identity key behind, whatever was stored,
    and calls no data binder, no callback and no fetch. *)
Theorem readyUserInfo_logged_out (cfg : Config) (b : Browser) :
  truthy (isLoggedIn b) = false →
  (readyUserInfo cfg b).1 = Normal JsUndefined ∧
  sessionStorage (readyUserInfo cfg b).2 !! "wfuUser" = None ∧
  localStorage (readyUserInfo cfg b).2 !! "wfuUserKey" = None ∧
  log (readyUserInfo cfg b).2 = log b.
Proof.
  intros L. unfold readyUserInfo. rewrite L. simpl.
  split; [done|]. split; [apply lookup_delete_eq|].
  split; [apply lookup_delete_eq|done].
Qed.

(** C6. With somebody logged in and a cached profile, one call of
    [readyUserInfo] hands the cached profile to the configured update
    callback exactly once and launches no fetch; the storage stays as it
    was. *)
Theorem readyUserInfo_cached
    (cfg : Config) (user : Sa5User) (b : Browser) :
  truthy (isLoggedIn b) = true →
  loadUserInfoCache b = Normal (Some user) →
  userInfoUpdatedCallback cfg = true →
  ∃ new : list Event,
    log (readyUserInfo cfg b).2 = (log b ++ new)%list ∧
    callback_calls new = [user] ∧
    launched new = [] ∧
    databind_calls new = (if dataBind cfg then [user] else []) ∧
    sessionStorage (readyUserInfo cfg b).2 = sessionStorage b ∧
    localStorage (readyUserInfo cfg b).2 = localStorage b.
Proof.
  intros L C K. unfold readyUserInfo. rewrite L, C, K. simpl.
  destruct (dataBind cfg).
  - exists [EvDataBind user; EvCallback user]. simpl.
    by rewrite <- app_assoc.
  - by exists [EvCallback user].
Qed.

Lemma getUserKey_local (b b' : Browser) :
  localStorage b' !! StorageKeys_userKey = localStorage b !! StorageKeys_userKey →
  getUserKey b' = getUserKey b.
Proof. intros E. unfold getUserKey, storage_getItem. by rewrite E. Qed.

(** C10. The submit listener of the login form stores the encoded e-mail
    under the key ['StorageKeys.userKey'], which [getUserKey] does not read
    and [clearUserInfo] does not remove: with no entry under ['wfuUserKey']
    the next [getUserKey] answers [undefined], and the captured entry
    outlives [clearUserInfo]. *)
Theorem login_capture_is_lost (userEmail : string) (b : Browser) :
  localStorage b !! "wfuUserKey" = None →
  localStorage (loginFormSubmit userEmail b) !! "StorageKeys.userKey"
    = Some (btoa userEmail) ∧
  getUserKey (loginFormSubmit userEmail b) = Normal None ∧
  localStorage (clearUserInfo (loginFormSubmit userEmail b))
    !! "StorageKeys.userKey" = Some (btoa userEmail).
Proof.
  intros A. split; [apply lookup_insert_eq|]. split.
  - rewrite (getUserKey_local b); [|by apply lookup_insert_ne].
    unfold getUserKey, storage_getItem, StorageKeys_userKey. by rewrite A.
  - unfold clearUserInfo. simpl. rewrite lookup_delete_ne by done.
    apply lookup_insert_eq.
Qed.

(** Whatever the storage held, the listener does not change what
    [getUserKey] answers. *)
Lemma login_capture_unseen (userEmail : string) (b : Browser) :
  getUserKey (loginFormSubmit userEmail b) = getUserKey b.
Proof. apply getUserKey_local. by apply lookup_insert_ne. Qed.

Lemma loadUserInfoAsync_loginInfo_local (cfg : Config) (b : Browser) :
  localStorage (loadUserInfoAsync_loginInfo cfg b).2 = localStorage b.
Proof.
  unfold loadUserInfoAsync_loginInfo.
  destruct (getUserKey b) as [[[|a k]|]|]; try done.
  apply saveUserInfoCache_local.
Qed.

Lemma loadUserInfoAsync_absent (cfg : Config) (b : Browser) :
  localStorage b !! "wfuUserKey" = None →
  localStorage (loadUserInfoAsync cfg b) !! "wfuUserKey" = None.
Proof.
  intros A. unfold loadUserInfoAsync.
  destruct (negb (truthy (isLoggedIn b))); [apply lookup_delete_eq|].
  by rewrite loadUserInfoAsync_loginInfo_local.
Qed.

(** No call of the module puts anything under ['wfuUserKey']: a storage
    that starts without the entry never gets one. *)
Lemma step_keeps_userKey_absent (cfg : Config) (b b' : Browser) :
  step cfg b b' →
  localStorage b !! "wfuUserKey" = None →
  localStorage b' !! "wfuUserKey" = None.
Proof.
  intros [userEmail b0|b0|b0|u b0|b0] A.
  - simpl. by rewrite lookup_insert_ne.
  - unfold readyUserInfo.
    destruct (negb (truthy (isLoggedIn b0))); [apply lookup_delete_eq|].
    destruct (loadUserInfoCache b0) as [[user|]|]; [|by apply loadUserInfoAsync_absent|done].
    simpl. by destruct (dataBind cfg), (userInfoUpdatedCallback cfg).
  - by apply loadUserInfoAsync_absent.
  - by rewrite saveUserInfoCache_local.
  - apply lookup_delete_eq.
Qed.

Lemma run_keeps_userKey_absent (cfg : Config) (b b' : Browser) :
  rtc (step cfg) b b' →
  localStorage b !! "wfuUserKey" = None →
  localStorage b' !! "wfuUserKey" = None.
Proof.
  induction 1 as [|b1 b2 b3 S _ IH]; [done|].
  intros A. apply IH. by eapply step_keeps_userKey_absent.
Qed.

End MembershipClaims.

(** ** The membership claims at sample inputs, on the reference platform *)

Section MembershipSamples.
Import Sa5Membership Sample.
Existing Instance Reference.platform.

Lemma cached_loads : loadUserInfoCache cached = Normal (Some scraped).
Proof.
  apply loadUserInfoCache_stored;
    [apply reference_truthy|apply reference_roundtrip|done].
Qed.

Lemma fresh_loads : loadUserInfoCache fresh = Normal None.
Proof. done. Qed.

Lemma merge_email_into_account_info_witness :
  ∃ merged : Sa5User,
    (saveUserInfoCache cfg login_alice cached).1 = Normal JsUndefined ∧
    sessionStorage (saveUserInfoCache cfg login_alice cached).2
      !! StorageKeys_user = Some (btoa (JSON_stringify merged)) ∧
    loadUserInfoCache (saveUserInfoCache cfg login_alice cached).2
      = Normal (Some merged) ∧
    fl_email (user_data_loaded merged) = true ∧
    fl_account_info (user_data_loaded merged) = true ∧
    email merged = Some "alice@example.com" ∧
    name merged = Some "Alice" ∧
    accept_communications merged = Some true ∧
    data merged = {[ "plan" := inl "gold" ]}.
Proof.
  exact (merge_email_into_account_info cfg login_alice scraped cached
           reference_truthy reference_roundtrip cached_loads
           eq_refl eq_refl).
Defined.

Lemma login_alice_persisted :
  persisted_flag FEmail (merges cfg [login_alice] fresh) = true.
Proof.
  unfold persisted_flag, merges. simpl.
  by rewrite (loadUserInfoCache_saved cfg login_alice None fresh
                reference_truthy reference_roundtrip fresh_loads).
Qed.

Lemma loaded_flags_monotonic_witness :
  persisted_flag FEmail
    (merges cfg ([login_alice] ++ [fields_only; account_bob])%list fresh) = true ∧
  persisted_flag FEmail
    (clearUserInfo
       (merges cfg ([login_alice] ++ [fields_only; account_bob])%list fresh))
    = false.
Proof.
  exact (loaded_flags_monotonic cfg FEmail [login_alice]
           [fields_only; account_bob] fresh
           reference_truthy reference_roundtrip login_alice_persisted).
Defined.

Lemma login_fields_disjoint : disjoint_flags login_alice fields_only.
Proof. by intros []. Qed.

Lemma merges_commute_witness :
  sessionStorage (merges cfg [login_alice; fields_only] fresh)
    = sessionStorage (merges cfg [fields_only; login_alice] fresh)
  ∧ localStorage (merges cfg [login_alice; fields_only] fresh)
    = localStorage (merges cfg [fields_only; login_alice] fresh)
  ∧ cookies (merges cfg [login_alice; fields_only] fresh)
    = cookies (merges cfg [fields_only; login_alice] fresh).
Proof.
  apply (merges_commute cfg login_alice fields_only fresh
           reference_truthy reference_roundtrip login_fields_disjoint).
  simpl. discriminate.
Defined.

Lemma login_account_disjoint : disjoint_flags login_alice account_bob.
Proof. by intros []. Qed.

(** C3, as stated, fails: a partial profile with only the [email] flag and
    one with only the [account_info] flag both write the e-mail, and the
    persisted profile keeps the e-mail of whichever was merged last. *)
Lemma merge_order_matters :
  disjoint_flags login_alice account_bob ∧
  ∃ u1 u2 : Sa5User,
    loadUserInfoCache (merges cfg [login_alice; account_bob] fresh)
      = Normal (Some u1) ∧
    loadUserInfoCache (merges cfg [account_bob; login_alice] fresh)
      = Normal (Some u2) ∧
    email u1 = Some "bob@example.com" ∧
    email u2 = Some "alice@example.com" ∧
    sessionStorage (merges cfg [login_alice; account_bob] fresh)
      ≠ sessionStorage (merges cfg [account_bob; login_alice] fresh).
Proof.
  split; [apply login_account_disjoint|].
  pose proof (loadUserInfoCache_saved cfg login_alice None fresh
                reference_truthy reference_roundtrip fresh_loads) as Ha.
  pose proof (loadUserInfoCache_saved cfg account_bob None fresh
                reference_truthy reference_roundtrip fresh_loads) as Hb.
  pose proof (loadUserInfoCache_saved cfg account_bob _ _
                reference_truthy reference_roundtrip Ha) as Hab.
  pose proof (loadUserInfoCache_saved cfg login_alice _ _
                reference_truthy reference_roundtrip Hb) as Hba.
  exists (merge (merge blank_user login_alice) account_bob),
         (merge (merge blank_user account_bob) login_alice).
  split; [exact Hab|]. split; [exact Hba|].
  split; [reflexivity|]. split; [reflexivity|].
  intros E. apply loadUserInfoCache_session in E.
  change (merges cfg [login_alice; account_bob] fresh)
    with (saveUserInfoCache cfg account_bob
            (saveUserInfoCache cfg login_alice fresh).2).2 in E.
  change (merges cfg [account_bob; login_alice] fresh)
    with (saveUserInfoCache cfg login_alice
            (saveUserInfoCache cfg account_bob fresh).2).2 in E.
  rewrite Hab, Hba in E.
  apply (f_equal (λ r, match r with
                       | Normal (Some u) => email u
                       | _ => None
                       end)) in E.
  discriminate E.
Qed.

Lemma readyUserInfo_logged_out_witness :
  (readyUserInfo cfg stale).1 = Normal JsUndefined ∧
  sessionStorage (readyUserInfo cfg stale).2 !! "wfuUser" = None ∧
  localStorage (readyUserInfo cfg stale).2 !! "wfuUserKey" = None ∧
  log (readyUserInfo cfg stale).2 = log stale.
Proof. exact (readyUserInfo_logged_out cfg stale eq_refl). Defined.

Lemma readyUserInfo_cached_witness :
  ∃ new : list Event,
    log (readyUserInfo cfg cached).2 = (log cached ++ new)%list ∧
    callback_calls new = [scraped] ∧
    launched new = [] ∧
    databind_calls new = [scraped] ∧
    sessionStorage (readyUserInfo cfg cached).2 = sessionStorage cached ∧
    localStorage (readyUserInfo cfg cached).2 = localStorage cached.
Proof.
  exact (readyUserInfo_cached cfg scraped cached eq_refl cached_loads
           eq_refl).
Defined.

Lemma login_capture_is_lost_witness :
  localStorage (loginFormSubmit "alice@example.com" fresh)
    !! "StorageKeys.userKey" = Some (btoa "alice@example.com") ∧
  getUserKey (loginFormSubmit "alice@example.com" fresh) = Normal None ∧
  localStorage (clearUserInfo (loginFormSubmit "alice@example.com" fresh))
    !! "StorageKeys.userKey" = Some (btoa "alice@example.com").
Proof.
  exact (login_capture_is_lost "alice@example.com" fresh (lookup_empty _)).
Defined.

End MembershipSamples.

(** ** The poster mirror *)

Section PosterMirror.
Import WebflowVideo.

Lemma find_alist_set_eq (n v : string) (l : list (string * string)) :
  List.find (λ a, String.eqb a.1 n) (alist_set n v l) = Some (n, v).
Proof.
  induction l as [|[n' v'] l IH]; simpl.
  - by rewrite String.eqb_refl.
  - destruct (String.eqb n' n) eqn:E; simpl.
    + by rewrite String.eqb_refl.
    + by rewrite E.
Qed.

Lemma find_alist_set_ne (n m v : string) (l : list (string * string)) :
  m ≠ n →
  List.find (λ a, String.eqb a.1 m) (alist_set n v l)
    = List.find (λ a, String.eqb a.1 m) l.
Proof.
  intros Hne.
  assert (String.eqb n m = false) as Hnm by (apply String.eqb_neq; congruence).
  induction l as [|[n' v'] l IH]; simpl.
  - by rewrite Hnm.
  - destruct (String.eqb n' n) eqn:E; simpl.
    + apply String.eqb_eq in E as ->. by rewrite Hnm.
    + by rewrite IH.
Qed.

Lemma getAttribute_setAttribute_eq (n v : string) (e : Element) :
  getAttribute n (setAttribute n v e) = Some v.
Proof. unfold getAttribute. simpl. by rewrite find_alist_set_eq. Qed.

Lemma getAttribute_setAttribute_ne (n m v : string) (e : Element) :
  m ≠ n → getAttribute m (setAttribute n v e) = getAttribute m e.
Proof. intros. unfold getAttribute. simpl. by rewrite find_alist_set_ne. Qed.

Lemma selected_spec (e : Element) :
  selected e = true ↔
  localName e = "div" ∧ is_Some (getAttribute "wfu-data-poster-url" e).
Proof.
  unfold selected, hasAttribute.
  rewrite andb_true_iff, String.eqb_eq, bool_decide_eq_true. done.
Qed.

(** C9, as amended. After the mirror has run, every [div] element that
    carries [wfu-data-poster-url] has [data-poster-url] equal to that
    value, character for character, and keeps its other attributes; every
    other element, with or without the source attribute, is unchanged. *)
Theorem poster_mirror (doc : list Element) (i : nat) (e : Element) :
  doc !! i = Some e →
  ∃ e' : Element,
    processAllDataPosterUrls doc !! i = Some e' ∧
    localName e' = localName e ∧
    (∀ n, n ≠ "data-poster-url" → getAttribute n e' = getAttribute n e) ∧
    (∀ v, localName e = "div" →
          getAttribute "wfu-data-poster-url" e = Some v →
          getAttribute "data-poster-url" e' = Some v) ∧
    (localName e ≠ "div" ∨ getAttribute "wfu-data-poster-url" e = None →
     e' = e).
Proof.
  intros Hi. unfold processAllDataPosterUrls.
  rewrite list_lookup_fmap, Hi. simpl.
  destruct (selected e) eqn:S.
  - apply selected_spec in S as [Hd [v Hv]].
    exists (mirror e). unfold mirror. rewrite Hv. simpl.
    split; [done|]. split; [done|]. split.
    { intros n Hn. by apply getAttribute_setAttribute_ne. }
    split.
    { intros v' _ [= <-]. apply getAttribute_setAttribute_eq. }
    intros [Hn|Hn]; [done|congruence].
  - exists e. repeat split; try done.
    intros v Hd Hv. exfalso.
    assert (selected e = true) as S'; [|congruence].
    apply selected_spec. eauto.
Qed.

Lemma poster_mirror_witness :
  ∃ e' : Element,
    processAllDataPosterUrls
      [mkElement "div" [("class", "hero"); ("wfu-data-poster-url", "a.jpg")];
       mkElement "p" []] !! 0%nat = Some e' ∧
    localName e' = "div" ∧
    (∀ n, n ≠ "data-poster-url" →
          getAttribute n e' =
            getAttribute n
              (mkElement "div"
                 [("class", "hero"); ("wfu-data-poster-url", "a.jpg")])) ∧
    (∀ v, "div" = "div" →
          Some "a.jpg" = Some v →
          getAttribute "data-poster-url" e' = Some v) ∧
    ("div" ≠ "div" ∨ Some "a.jpg" = None →
     e' = mkElement "div"
            [("class", "hero"); ("wfu-data-poster-url", "a.jpg")]).
Proof.
  exact (poster_mirror
           [mkElement "div"
              [("class", "hero"); ("wfu-data-poster-url", "a.jpg")];
            mkElement "p" []] 0
           (mkElement "div"
              [("class", "hero"); ("wfu-data-poster-url", "a.jpg")])
           eq_refl).
Defined.

(** C9, as stated, fails: the selector picks [div] elements only, so a
    [video] element that carries the source attribute gets no
    [data-poster-url]. *)
Lemma non_div_poster_not_mirrored :
  let e := mkElement "video" [("wfu-data-poster-url", "poster.jpg")] in
  getAttribute "wfu-data-poster-url" e = Some "poster.jpg" ∧
  processAllDataPosterUrls [e] = [e] ∧
  (getAttribute "data-poster-url" <$> processAllDataPosterUrls [e] !! 0%nat)
    = Some None.
Proof. done. Qed.

End PosterMirror.

(** ** Strings: splitting, trimming, prefixes *)

Section Strings.

Lemma app_String (a : ascii) (s t : string) :
  String a s +:+ t = String a (s +:+ t).
Proof. reflexivity. Qed.

Lemma app_empty_l (s : string) : "" +:+ s = s.
Proof. reflexivity. Qed.

Lemma app_empty_r (s : string) : s +:+ "" = s.
Proof. induction s as [|a s IH]; [done|]. by rewrite app_String, IH. Qed.

Lemma app_assoc (s t u : string) : (s +:+ t) +:+ u = s +:+ t +:+ u.
Proof. induction s as [|a s IH]; [done|]. by rewrite !app_String, IH. Qed.

Lemma app_not_empty_r (s t : string) : t ≠ "" → s +:+ t ≠ "".
Proof. by destruct s. Qed.

Lemma has_char_app (c : ascii) (s t : string) :
  has_char c (s +:+ t) = has_char c s || has_char c t.
Proof.
  induction s as [|a s IH]; [done|].
  rewrite app_String. simpl. by rewrite IH, orb_assoc.
Qed.

Lemma has_ctl_app (s t : string) :
  has_ctl (s +:+ t) = has_ctl s || has_ctl t.
Proof.
  induction s as [|a s IH]; [done|].
  rewrite app_String. simpl. by rewrite IH, orb_assoc.
Qed.

Lemma has_ctl_cons (a : ascii) (s : string) :
  has_ctl (String a s) = false → is_ctl a = false ∧ has_ctl s = false.
Proof. simpl. by intros ?%orb_false_elim. Qed.

Lemma has_char_cons (c a : ascii) (s : string) :
  has_char c (String a s) = false → Ascii.eqb a c = false ∧ has_char c s = false.
Proof. simpl. by intros ?%orb_false_elim. Qed.

(** *** [cut] *)

Lemma cut_none (c : ascii) (s : string) :
  has_char c s = false → cut c s = None.
Proof.
  induction s as [|a s IH]; [done|].
  intros [E H]%has_char_cons. simpl. by rewrite E, IH.
Qed.

Lemma cut_app (c : ascii) (x r : string) :
  has_char c x = false → cut c (x +:+ String c r) = Some (x, r).
Proof.
  induction x as [|a x IH].
  - intros _. rewrite app_empty_l. simpl. by rewrite Ascii.eqb_refl.
  - intros [E H]%has_char_cons. rewrite app_String. simpl.
    by rewrite E, IH.
Qed.

(** *** [prefix] *)

Lemma prefix_empty (s : string) : String.prefix "" s = true.
Proof. by destruct s. Qed.

Lemma prefix_cons (a b : ascii) (s t : string) :
  String.prefix (String a s) (String b t)
    = Ascii.eqb a b && String.prefix s t.
Proof.
  simpl. destruct (ascii_dec a b) as [->|Hne].
  - by rewrite Ascii.eqb_refl.
  - by apply Ascii.eqb_neq in Hne as ->.
Qed.

Lemma prefix_app (k s : string) : String.prefix k (k +:+ s) = true.
Proof.
  induction k as [|a k IH]; [apply prefix_empty|].
  by rewrite app_String, prefix_cons, Ascii.eqb_refl.
Qed.

(** A string without [=] that starts a row starts the name of the row. *)
Lemma prefix_row (k n v : string) :
  has_char "=" k = false →
  String.prefix k (n +:+ "=" +:+ v) = true → String.prefix k n = true.
Proof.
  revert n. induction k as [|a k IH]; intros n Hk.
  - intros _. apply prefix_empty.
  - apply has_char_cons in Hk as [E Hk]. destruct n as [|b n].
    + rewrite app_empty_l.
      change ("=" +:+ v) with (String "=" v).
      rewrite prefix_cons, E. done.
    + rewrite app_String, !prefix_cons.
      intros [? ?]%andb_true_iff. apply andb_true_iff. eauto.
Qed.

(** *** [split] on one character *)

Lemma split_char_cons (c a : ascii) (s : string) :
  split (String c "") (String a s) =
    if Ascii.eqb a c then "" :: split (String c "") s
    else cons_hd a (split (String c "") s).
Proof.
  unfold split. cbn [split_go]. rewrite prefix_cons, prefix_empty.
  rewrite andb_true_r, Ascii.eqb_sym. done.
Qed.

Lemma split_char_none (c : ascii) (x : string) :
  has_char c x = false → split (String c "") x = [x].
Proof.
  induction x as [|a x IH]; [done|].
  intros [E H]%has_char_cons. by rewrite split_char_cons, E, IH.
Qed.

Lemma split_char_app (c : ascii) (x r : string) :
  has_char c x = false →
  split (String c "") (x +:+ String c r) = x :: split (String c "") r.
Proof.
  induction x as [|a x IH].
  - intros _. by rewrite app_empty_l, split_char_cons, Ascii.eqb_refl.
  - intros [E H]%has_char_cons.
    by rewrite app_String, split_char_cons, E, IH.
Qed.

(** *** [split] on semicolon and space *)

Lemma split_sep2_cons (a : ascii) (s : string) :
  Ascii.eqb a ";" = false →
  split "; " (String a s) = cons_hd a (split "; " s).
Proof.
  intros E. unfold split. cbn [split_go].
  change "; " with (String ";" " ").
  by rewrite prefix_cons, Ascii.eqb_sym, E.
Qed.

Lemma split_sep2_hit (r : string) :
  split "; " ("; " +:+ r) = "" :: split "; " r.
Proof.
  change ("; " +:+ r) with (String ";" (String " " r)).
  unfold split. cbn [split_go].
  change "; " with (String ";" (String " " "")) at 1.
  by rewrite !prefix_cons, prefix_empty.
Qed.

Lemma split_sep2_none (x : string) :
  has_char ";" x = false → split "; " x = [x].
Proof.
  induction x as [|a x IH]; [done|].
  intros [E H]%has_char_cons. by rewrite split_sep2_cons, IH.
Qed.

Lemma split_sep2_app (x r : string) :
  has_char ";" x = false →
  split "; " (x +:+ "; " +:+ r) = x :: split "; " r.
Proof.
  induction x as [|a x IH].
  - intros _. by rewrite app_empty_l, split_sep2_hit.
  - intros [E H]%has_char_cons.
    by rewrite app_String, split_sep2_cons, IH.
Qed.

End Strings.

Section Trimming.

Lemma length_trimStart (s : string) :
  (String.length (trimStart s) ≤ String.length s)%nat.
Proof.
  induction s as [|a s IH]; [done|]. simpl.
  destruct (is_ws a); simpl; lia.
Qed.

Lemma length_trimEnd (s : string) :
  (String.length (trimEnd s) ≤ String.length s)%nat.
Proof.
  induction s as [|a s IH]; [done|]. simpl.
  destruct (trimEnd s); [destruct (is_ws a)|]; simpl in *; lia.
Qed.

Lemma trim_fixed_lead (n : string) : trim n = n → lead_ws n = false.
Proof.
  destruct n as [|a n]; [done|]. simpl.
  destruct (is_ws a) eqn:W; [|done].
  intros E. apply (f_equal String.length) in E.
  unfold trim in E. simpl in E. rewrite W in E.
  pose proof (length_trimEnd (trimStart n)).
  pose proof (length_trimStart n). lia.
Qed.

Lemma trimStart_lead (s : string) : lead_ws s = false → trimStart s = s.
Proof. destruct s as [|a s]; [done|]. simpl. by intros ->. Qed.

Lemma lead_ws_app (n t : string) : n ≠ "" → lead_ws (n +:+ t) = lead_ws n.
Proof. by destruct n. Qed.

Lemma trimEnd_keep (c : ascii) (v : string) :
  is_ws c = false → trimEnd (String c v) = String c (trimEnd v).
Proof. intros W. simpl. destruct (trimEnd v); by rewrite ?W. Qed.

Lemma trimEnd_app (n t : string) :
  trimEnd t ≠ "" → trimEnd (n +:+ t) = n +:+ trimEnd t.
Proof.
  intros Ht. induction n as [|a n IH]; [done|].
  rewrite !app_String. simpl. rewrite IH.
  destruct (n +:+ trimEnd t) eqn:E; [|done].
  by apply app_not_empty_r in E.
Qed.

Lemma trim_row (n v : string) :
  n ≠ "" → lead_ws n = false →
  trim (n +:+ "=" +:+ v) = n +:+ "=" +:+ trimEnd v.
Proof.
  intros Hn Hl. unfold trim.
  rewrite trimStart_lead by (by rewrite lead_ws_app).
  change ("=" +:+ v) with (String "=" v).
  rewrite trimEnd_app; by rewrite trimEnd_keep.
Qed.

Lemma trim_space (s : string) : trim (" " +:+ s) = trim s.
Proof. reflexivity. Qed.

(** The name the loop of [reset] reads off a piece of the cookie
    string. *)
Lemma piece_name (pre : string) (c : string * string) :
  cookie_ok c → pre = "" ∨ pre = " " →
  hd "" (split "=" (trim (pre +:+ row c))) = c.1.
Proof.
  intros [(Hn & Ht & He & Hs & Hc) Hv] Hpre.
  assert (trim (pre +:+ row c) = trim (row c)) as ->.
  { destruct Hpre as [-> | ->]; [done|apply trim_space]. }
  unfold row. rewrite trim_row by auto using trim_fixed_lead.
  change ("=" +:+ trimEnd c.2) with (String "=" (trimEnd c.2)).
  by rewrite split_char_app.
Qed.

End Trimming.

Section CookieString.

Lemma cookie_string_cons (c c' : string * string)
    (j : list (string * string)) :
  cookie_string (c :: c' :: j) = row c +:+ "; " +:+ cookie_string (c' :: j).
Proof. reflexivity. Qed.

Lemma row_no_semicolon (c : string * string) :
  cookie_ok c → has_char ";" (row c) = false.
Proof.
  intros [(Hn & Ht & He & Hs & Hc) [Hv _]]. unfold row.
  by rewrite !has_char_app, Hs, Hv.
Qed.

(** On a well-formed jar the cookie string splits back into its rows. *)
Lemma split_rows (jar : list (string * string)) :
  jar_ok jar → jar ≠ [] → split "; " (cookie_string jar) = map row jar.
Proof.
  unfold jar_ok.
  induction jar as [|c [|c' j] IH]; intros Hok Hne; [done| |].
  - apply Forall_cons_1 in Hok as [Hc _].
    by apply split_sep2_none, row_no_semicolon.
  - apply Forall_cons_1 in Hok as [Hc Hok].
    rewrite cookie_string_cons, split_sep2_app by by apply row_no_semicolon.
    by rewrite IH.
Qed.

(** Split at the bare semicolon, every piece but the first keeps the
    blank that followed the semicolon. *)
Lemma split_pieces (pre : string) (c : string * string)
    (j : list (string * string)) :
  has_char ";" pre = false → jar_ok (c :: j) →
  split ";" (pre +:+ cookie_string (c :: j))
    = (pre +:+ row c) :: map (λ c, " " +:+ row c) j.
Proof.
  unfold jar_ok.
  revert pre c. induction j as [|c' j IH]; intros pre c Hp Hok.
  - apply Forall_cons_1 in Hok as [Hc _]. simpl.
    apply split_char_none.
    by rewrite has_char_app, Hp, row_no_semicolon.
  - apply Forall_cons_1 in Hok as [Hc Hok].
    rewrite cookie_string_cons.
    change ("; " +:+ cookie_string (c' :: j))
      with (String ";" (" " +:+ cookie_string (c' :: j))).
    rewrite <- app_assoc.
    rewrite split_char_app
      by by rewrite has_char_app, Hp, row_no_semicolon.
    by rewrite IH.
Qed.

End CookieString.

(** ** The cookie setter *)

Section CookieAssign.

(** A write of a name with the epoch date removes the cookie of that
    name. *)
Lemma assign_expire (n : string) (jar : list (string * string)) :
  name_ok n →
  cookie_assign (n +:+ "=;expires=Thu, 01 Jan 1970 00:00:00 GMT") jar
    = alist_remove n jar.
Proof.
  intros (Hn & Ht & He & Hs & Hc). unfold cookie_assign.
  rewrite has_ctl_app, Hc. cbn [orb].
  change (has_ctl "=;expires=Thu, 01 Jan 1970 00:00:00 GMT") with false.
  cbn iota.
  change "=;expires=Thu, 01 Jan 1970 00:00:00 GMT"
    with ("=" +:+ String ";" "expires=Thu, 01 Jan 1970 00:00:00 GMT").
  rewrite <- app_assoc.
  rewrite cut_app by by rewrite has_char_app, Hs.
  change (n +:+ "=") with (n +:+ String "=" "").
  rewrite cut_app by done. rewrite Ht.
  apply String.eqb_neq in Hn as ->. done.
Qed.

(** A write of a name and a value without attributes sets the cookie. *)
Lemma assign_set (k v : string) (jar : list (string * string)) :
  name_ok k → has_char ";" v = false → has_ctl v = false →
  cookie_assign (k +:+ "=" +:+ v) jar = alist_set k (trim v) jar.
Proof.
  intros (Hn & Ht & He & Hs & Hc) Hv Hvc. unfold cookie_assign.
  rewrite !has_ctl_app, Hc, Hvc. cbn [orb has_ctl].
  change (is_ctl "=") with false. cbn [orb]. cbn iota.
  rewrite cut_none by by rewrite !has_char_app, Hs, Hv.
  change ("=" +:+ v) with (String "=" v).
  rewrite cut_app by done. rewrite Ht.
  apply String.eqb_neq in Hn as ->. done.
Qed.

Lemma alist_set_not_nil (k v : string) (jar : list (string * string)) :
  alist_set k v jar ≠ [].
Proof. destruct jar as [|c jar]; [done|]. simpl. by destruct (String.eqb _ _). Qed.

Lemma alist_set_ok (k v : string) (jar : list (string * string)) :
  jar_ok jar → cookie_ok (k, v) → jar_ok (alist_set k v jar).
Proof.
  unfold jar_ok. intros Hj Hc.
  induction Hj as [|c jar Hc' Hj IH]; simpl.
  - by constructor.
  - destruct (String.eqb c.1 k); by constructor.
Qed.

Lemma alist_remove_ok (n : string) (jar : list (string * string)) :
  jar_ok jar → jar_ok (alist_remove n jar).
Proof.
  unfold jar_ok, alist_remove.
  induction 1 as [|c jar Hc Hj IH]; [constructor|].
  rewrite filter_cons. case_decide; [by constructor|done].
Qed.

End CookieAssign.

(** ** Well-formed jars are what the setter keeps *)

Section JarInvariant.

Lemma cut_Some (c : ascii) (s l r : string) :
  cut c s = Some (l, r) → has_char c l = false ∧ s = l +:+ String c r.
Proof.
  revert l. induction s as [|a s IH]; intros l; [done|]. simpl.
  destruct (Ascii.eqb a c) eqn:E.
  - intros [= <- <-]. by apply Ascii.eqb_eq in E as ->.
  - destruct (cut c s) as [[l' r']|]; [|done].
    intros [= <- <-]. destruct (IH l' eq_refl) as [H ->].
    simpl. by rewrite E, H.
Qed.

Lemma cut_None (c : ascii) (s : string) :
  cut c s = None → has_char c s = false.
Proof.
  induction s as [|a s IH]; [done|]. simpl.
  destruct (Ascii.eqb a c); [done|].
  destruct (cut c s) as [[l r]|]; [done|]. auto.
Qed.

Lemma has_char_trimStart (c : ascii) (s : string) :
  has_char c s = false → has_char c (trimStart s) = false.
Proof.
  induction s as [|a s IH]; [done|].
  intros H. pose proof H as [E Hs]%has_char_cons. simpl.
  destruct (is_ws a); auto.
Qed.

Lemma has_char_trimEnd (c : ascii) (s : string) :
  has_char c s = false → has_char c (trimEnd s) = false.
Proof.
  induction s as [|a s IH]; [done|].
  intros [E Hs]%has_char_cons. specialize (IH Hs). simpl.
  destruct (trimEnd s); [destruct (is_ws a)|]; simpl in *;
    by rewrite ?E, ?IH.
Qed.

Lemma has_char_trim (c : ascii) (s : string) :
  has_char c s = false → has_char c (trim s) = false.
Proof. intros. by apply has_char_trimEnd, has_char_trimStart. Qed.

Lemma lead_ws_trimStart (s : string) : lead_ws (trimStart s) = false.
Proof.
  induction s as [|a s IH]; [done|]. simpl.
  destruct (is_ws a) eqn:W; [done|]. simpl. by rewrite W.
Qed.

Lemma lead_ws_trimEnd (s : string) :
  lead_ws s = false → lead_ws (trimEnd s) = false.
Proof.
  destruct s as [|a s]; [done|]. simpl. intros W.
  destruct (trimEnd s); by rewrite ?W.
Qed.

Lemma trimEnd_idem (s : string) : trimEnd (trimEnd s) = trimEnd s.
Proof.
  induction s as [|a s IH]; [done|]. cbn [trimEnd].
  destruct (trimEnd s) as [|b r] eqn:E.
  - destruct (is_ws a) eqn:W; [done|]. cbn [trimEnd]. by rewrite W.
  - change (trimEnd (String a (String b r)))
      with (match trimEnd (String b r) with
            | "" => if is_ws a then "" else String a ""
            | r0 => String a r0
            end).
    by rewrite IH.
Qed.

Lemma trim_idem (s : string) : trim (trim s) = trim s.
Proof.
  unfold trim. rewrite (trimStart_lead (trimEnd _)).
  - apply trimEnd_idem.
  - apply lead_ws_trimEnd, lead_ws_trimStart.
Qed.

Lemma has_ctl_trimStart (s : string) :
  has_ctl s = false → has_ctl (trimStart s) = false.
Proof.
  induction s as [|a s IH]; [done|].
  intros H. pose proof H as [E Hs]%has_ctl_cons. simpl.
  destruct (is_ws a); auto.
Qed.

Lemma has_ctl_trimEnd (s : string) :
  has_ctl s = false → has_ctl (trimEnd s) = false.
Proof.
  induction s as [|a s IH]; [done|].
  intros [E Hs]%has_ctl_cons. specialize (IH Hs). simpl.
  destruct (trimEnd s); [destruct (is_ws a)|]; simpl in *;
    by rewrite ?E, ?IH.
Qed.

Lemma has_ctl_trim (s : string) : has_ctl s = false → has_ctl (trim s) = false.
Proof. intros. by apply has_ctl_trimEnd, has_ctl_trimStart. Qed.

(** Every write through [document.cookie] keeps the jar well formed, so
    every jar that grew from an empty one is. *)
Lemma cookie_assign_ok (s : string) (jar : list (string * string)) :
  jar_ok jar → jar_ok (cookie_assign s jar).
Proof.
  intros Hj. unfold cookie_assign.
  destruct (has_ctl s) eqn:Hc; [done|].
  assert (∃ nv attrs,
            match cut ";" s with
            | Some (nv, rest) => (nv, split ";" rest)
            | None => (s, [])
            end = (nv, attrs)
            ∧ has_char ";" nv = false ∧ has_ctl nv = false)
    as (nv & attrs & -> & Hnv & Hnc).
  { destruct (cut ";" s) as [[nv rest]|] eqn:E.
    - apply cut_Some in E as [? ->].
      rewrite has_ctl_app in Hc. apply orb_false_elim in Hc as [? _]. eauto.
    - apply cut_None in E. eauto. }
  destruct (cut "=" nv) as [[n v]|] eqn:E; [|done].
  apply cut_Some in E as [Hn ->].
  rewrite has_char_app in Hnv. apply orb_false_elim in Hnv as [Hns Hvs].
  apply has_char_cons in Hvs as [_ Hvs].
  rewrite has_ctl_app in Hnc. apply orb_false_elim in Hnc as [Hnc Hvc].
  apply has_ctl_cons in Hvc as [_ Hvc].
  destruct (String.eqb (trim n) "") eqn:En; [done|].
  destruct (existsb attr_expired attrs); [by apply alist_remove_ok|].
  apply alist_set_ok; [done|]. split; simpl.
  - split; [by apply String.eqb_neq|]. split; [apply trim_idem|].
    split; [by apply has_char_trim|].
    split; [by apply has_char_trim|by apply has_ctl_trim].
  - split; [by apply has_char_trim|by apply has_ctl_trim].
Qed.

Lemma jar_ok_nil : jar_ok [].
Proof. constructor. Qed.

Lemma set_document_cookie_ok (s : string) (b : Browser) :
  jar_ok (cookies b) → jar_ok (cookies (set_document_cookie s b)).
Proof. apply cookie_assign_ok. Qed.

(** The three writing operations of the tracker keep the jar well
    formed. *)
Lemma track_ok (cfg : WfuTracker.Config) (key : string) (val : option string)
    (b : Browser) :
  jar_ok (cookies b) → jar_ok (cookies (WfuTracker.track cfg key val b)).
Proof.
  intros Hj. unfold WfuTracker.track.
  destruct (WfuTracker.switch cfg); try done. by apply cookie_assign_ok.
Qed.

Lemma untrack_ok (cfg : WfuTracker.Config) (key : string) (b : Browser) :
  jar_ok (cookies b) → jar_ok (cookies (WfuTracker.untrack cfg key b)).
Proof.
  intros Hj. unfold WfuTracker.untrack.
  destruct (WfuTracker.switch cfg); try done. by apply cookie_assign_ok.
Qed.

Lemma reset_ok (cfg : WfuTracker.Config) (b : Browser) :
  jar_ok (cookies b) → jar_ok (cookies (WfuTracker.reset cfg b)).
Proof.
  intros Hj. unfold WfuTracker.reset.
  destruct (WfuTracker.switch cfg); try done.
  generalize (split ";" (document_cookie b)). intros items.
  revert b Hj. induction items as [|item items IH]; intros b Hj; [done|].
  simpl. apply IH. unfold WfuTracker.reset_step.
  destruct (startsWith _ _); [by apply cookie_assign_ok|done].
Qed.

End JarInvariant.

(** ** Resetting the tracker *)

Section ResetScope.
Import WfuTracker.

Lemma filter_ext_in {A} (P1 P2 : A → Prop)
    `{!∀ x, Decision (P1 x), !∀ x, Decision (P2 x)} (l : list A) :
  (∀ x, x ∈ l → P1 x ↔ P2 x) → filter P1 l = filter P2 l.
Proof.
  induction l as [|a l IH]; intros Hext; [done|].
  rewrite !filter_cons, IH by (intros; apply Hext; by right).
  apply decide_ext, Hext. by left.
Qed.

Lemma filter_all {A} (P : A → Prop) `{!∀ x, Decision (P x)} (l : list A) :
  (∀ x, x ∈ l → P x) → filter P l = l.
Proof.
  induction l as [|a l IH]; intros Hall; [done|].
  rewrite filter_cons_True by (apply Hall; by left).
  rewrite IH; [done|]. intros; apply Hall; by right.
Qed.

(** Removing from a jar, one after the other, the names of a list that
    pass a test. *)
Lemma fold_remove (t : string → bool) (names : list string)
    (jar : list (string * string)) :
  fold_left (λ j n, if t n then alist_remove n j else j) names jar
    = filter (λ c, ¬ (t c.1 = true ∧ c.1 ∈ names)) jar.
Proof.
  revert jar. induction names as [|n names IH]; intros jar; simpl.
  - rewrite filter_all; [done|]. intros c _ [_ Hc]. by apply elem_of_nil in Hc.
  - rewrite IH. destruct (t n) eqn:T.
    + unfold alist_remove. rewrite list_filter_filter.
      apply list_filter_iff. intros c. rewrite elem_of_cons. split.
      * intros [H1 H2] [Ht [Hc|Hc]]; [done|]. apply H1. done.
      * intros H1. split; [intros [? ?]; apply H1; auto|].
        intros Hc. apply H1. rewrite Hc. auto.
    + apply list_filter_iff. intros c. rewrite elem_of_cons. split.
      * intros H1 [Ht [Hc|Hc]]; [congruence|]. apply H1. done.
      * intros H1 [? ?]. apply H1. auto.
Qed.

Lemma reset_step_cookies (cfg : Config) (b : Browser) (item : string) :
  name_ok (piece_to_name item) →
  cookies (reset_step cfg b item) =
    (if startsWith (piece_to_name item) (prefix cfg +:+ "_")
     then alist_remove (piece_to_name item) (cookies b) else cookies b).
Proof.
  intros Hn. unfold reset_step. fold (piece_to_name item).
  destruct (startsWith _ _); [|done].
  simpl. by rewrite assign_expire.
Qed.

Lemma reset_step_frame (cfg : Config) (b : Browser) (item : string) :
  sessionStorage (reset_step cfg b item) = sessionStorage b ∧
  localStorage (reset_step cfg b item) = localStorage b ∧
  log (reset_step cfg b item) = log b.
Proof. unfold reset_step. by destruct (startsWith _ _). Qed.

Lemma reset_fold (cfg : Config) (items : list string) (b : Browser) :
  Forall name_ok (map piece_to_name items) →
  cookies (fold_left (reset_step cfg) items b) =
    fold_left
      (λ j n, if startsWith n (prefix cfg +:+ "_")
              then alist_remove n j else j)
      (map piece_to_name items) (cookies b) ∧
  sessionStorage (fold_left (reset_step cfg) items b) = sessionStorage b ∧
  localStorage (fold_left (reset_step cfg) items b) = localStorage b ∧
  log (fold_left (reset_step cfg) items b) = log b.
Proof.
  revert b. induction items as [|item items IH]; intros b Hn; [done|].
  apply Forall_cons_1 in Hn as [Hn Hns]. simpl.
  destruct (IH (reset_step cfg b item) Hns) as (-> & -> & -> & ->).
  rewrite reset_step_cookies by done.
  by destruct (reset_step_frame cfg b item) as (-> & -> & ->).
Qed.

Lemma pieces_to_names (jar : list (string * string)) :
  jar_ok jar → jar ≠ [] →
  map piece_to_name (split ";" (cookie_string jar)) = map fst jar.
Proof.
  destruct jar as [|c j]; [done|]. intros Hok _.
  rewrite <- (app_empty_l (cookie_string _)).
  rewrite split_pieces by done. rewrite app_empty_l.
  apply Forall_cons_1 in Hok as [Hc Hj]. simpl. f_equal.
  - apply (piece_name "" c Hc). by left.
  - rewrite map_map. apply map_ext_Forall.
    eapply Forall_impl; [|exact Hj]. intros c' Hc'.
    apply (piece_name " " c' Hc'). by right.
Qed.

Lemma no_name_for_empty (p : string) : startsWith "" (p +:+ "_") = false.
Proof. by destruct p. Qed.

Lemma switch_cookies (cfg : Config) :
  method cfg = "cookies" → switch cfg = Cookies.
Proof. unfold switch. by intros ->. Qed.

Lemma switch_sessionStorage (cfg : Config) :
  method cfg = "sessionStorage" → switch cfg = SessionStorage.
Proof. unfold switch. by intros ->. Qed.

Lemma switch_localStorage (cfg : Config) :
  method cfg = "localStorage" → switch cfg = LocalStorage.
Proof. unfold switch. by intros ->. Qed.

Lemma reset_cookies (cfg : Config) (b : Browser) :
  jar_ok (cookies b) → method cfg = "cookies" →
  cookies (reset cfg b)
    = filter (λ c, startsWith c.1 (prefix cfg +:+ "_") = false) (cookies b)
  ∧ sessionStorage (reset cfg b) = sessionStorage b
  ∧ localStorage (reset cfg b) = localStorage b.
Proof.
  intros Hok Hm. unfold reset. rewrite (switch_cookies _ Hm).
  unfold document_cookie.
  destruct (cookies b) as [|c j] eqn:Hj.
  - simpl. unfold reset_step.
    change (hd "" (split "=" (trim ""))) with "".
    by rewrite no_name_for_empty, Hj.
  - assert (Forall name_ok
              (map piece_to_name (split ";" (cookie_string (c :: j)))))
      as Hn.
    { rewrite pieces_to_names by done. apply Forall_fmap.
      eapply Forall_impl; [|exact Hok]. by intros c' [Hc' _]. }
    destruct (reset_fold cfg _ b Hn) as (-> & -> & -> & _).
    split; [|done].
    rewrite pieces_to_names, fold_remove, Hj by done.
    apply filter_ext_in. intros c' Hc'.
    assert (c'.1 ∈ map fst (c :: j)) by by apply list_elem_of_fmap_2.
    destruct (startsWith c'.1 _); intuition congruence.
Qed.

(** C8. Under cookies, [reset] expires exactly the cookies whose names
    start with the prefix and an underscore: the jar that is left is the
    old jar without them, every other cookie in its place with its value.
    Under the session and the local storage it empties the whole store,
    keys of others included. *)
Theorem reset_scope (cfg : Config) (b : Browser) :
  jar_ok (cookies b) →
  (method cfg = "cookies" →
     cookies (reset cfg b)
       = filter (λ c, startsWith c.1 (prefix cfg +:+ "_") = false)
           (cookies b)
     ∧ sessionStorage (reset cfg b) = sessionStorage b
     ∧ localStorage (reset cfg b) = localStorage b) ∧
  (method cfg = "sessionStorage" →
     sessionStorage (reset cfg b) = ∅
     ∧ localStorage (reset cfg b) = localStorage b
     ∧ cookies (reset cfg b) = cookies b) ∧
  (method cfg = "localStorage" →
     localStorage (reset cfg b) = ∅
     ∧ sessionStorage (reset cfg b) = sessionStorage b
     ∧ cookies (reset cfg b) = cookies b).
Proof.
  intros Hok. split; [by apply reset_cookies|]. split.
  - intros Hm. unfold reset. by rewrite (switch_sessionStorage _ Hm).
  - intros Hm. unfold reset. by rewrite (switch_localStorage _ Hm).
Qed.

End ResetScope.

(** ** Tracking a flag and reading it back *)

Section Track.
Import WfuTracker.

Lemma find_row (k v : string) (jar : list (string * string)) :
  has_char "=" k = false →
  (∀ c, c ∈ jar → startsWith c.1 k = true → c.1 = k) →
  List.find (λ r, startsWith r k) (map row (alist_set k v jar))
    = Some (row (k, v)).
Proof.
  intros Hk. induction jar as [|c jar IH]; intros Hjar; simpl.
  - unfold startsWith, row. simpl. by rewrite prefix_app.
  - destruct (String.eqb c.1 k) eqn:E; simpl.
    + unfold startsWith, row. simpl. by rewrite prefix_app.
    + destruct (startsWith (row c) k) eqn:S.
      * apply prefix_row in S; [|done].
        apply Hjar in S; [|by left]. by apply String.eqb_neq in E.
      * apply IH. intros c' Hc'. apply Hjar. by right.
Qed.

Lemma track_cookie (cfg : Config) (key : string) (val : option string)
    (b : Browser) :
  method cfg = "cookies" → cookie_trackable cfg key val b →
  cookies (track cfg key val b)
    = alist_set (trackKey cfg key) (or_true val) (cookies b).
Proof.
  intros Hm (Hj & Hk & Hs & He & Hc & Ht & Hu).
  unfold track. rewrite (switch_cookies _ Hm). simpl.
  assert (prefix cfg +:+ "_" +:+ key +:+ "=" +:+ or_true val
          = trackKey cfg key +:+ "=" +:+ or_true val) as ->.
  { unfold trackKey. by rewrite !app_assoc. }
  by rewrite assign_set, Ht.
Qed.

Lemma cookie_lookup_set (cfg : Config) (key : string) (val : option string)
    (b : Browser) :
  method cfg = "cookies" → cookie_trackable cfg key val b →
  cookie_lookup cfg key (track cfg key val b) = Some (or_true val).
Proof.
  intros Hm Hc. pose proof Hc as (Hj & Hk & Hs & He & Hvc & Ht & Hu).
  unfold cookie_lookup, document_cookie.
  rewrite (track_cookie _ _ _ _ Hm Hc).
  rewrite split_rows; [|by apply alist_set_ok|apply alist_set_not_nil].
  destruct Hk as (Hn & Hkt & Hke & Hks & Hkc).
  rewrite find_row by done. unfold row. simpl.
  change ("=" +:+ or_true val) with (String "=" (or_true val)).
  rewrite split_char_app by done.
  by rewrite split_char_none.
Qed.

(** C7, as amended. For each of the three backing methods, [track] and
    then [isTracked] of the same key gives the tracked value when it is a
    non-empty string and ["true"] when no value or an empty one was given.
    Under the two storages this is so for every key and value. Under
    cookies it is so when the cookie store can hold the flag
    ([cookie_trackable]): the jar is well formed (every cookie has a name
    that is not empty, has no white space around it and holds no [=], no [;]
    and no control character, and a value that holds no [;] and no control
    character), the namespaced key is such a name, the value written holds
    no [=], no [;] and no control character and has no white space around
    it, and no other cookie's name starts with the namespaced key. *)
Theorem track_then_isTracked (cfg : Config) (key : string)
    (val : option string) (b : Browser) :
  method cfg = "sessionStorage" ∨ method cfg = "localStorage"
    ∨ method cfg = "cookies" →
  (method cfg = "cookies" → cookie_trackable cfg key val b) →
  isTracked cfg key (track cfg key val b) = Some (or_true val).
Proof.
  intros [Hm|[Hm|Hm]] Hc.
  - unfold isTracked, track. rewrite (switch_sessionStorage _ Hm).
    apply lookup_insert_eq.
  - unfold isTracked, track. rewrite (switch_localStorage _ Hm).
    apply lookup_insert_eq.
  - unfold isTracked. rewrite (switch_cookies _ Hm).
    by apply cookie_lookup_set, Hc.
Qed.

End Track.

(** ** The tracker claims at sample inputs *)

Section TrackerSamples.
Import WfuTracker Sample.

Lemma name_ok_track_seen : name_ok "track_seen".
Proof. by repeat split. Qed.

Lemma jar_ok_sample : jar_ok (cookies jar).
Proof. repeat constructor; done. Qed.

Lemma themed_trackable :
  cookie_trackable cookie_tracker "seen" (Some "yes") themed.
Proof.
  split; [repeat constructor; done|].
  split; [apply name_ok_track_seen|].
  do 4 (split; [done|]).
  intros c ->%list_elem_of_singleton. discriminate.
Qed.

Lemma track_then_isTracked_witness :
  isTracked cookie_tracker "seen"
    (track cookie_tracker "seen" (Some "yes") themed) = Some "yes".
Proof.
  exact (track_then_isTracked cookie_tracker "seen" (Some "yes") themed
           (or_intror (or_intror eq_refl)) (λ _, themed_trackable)).
Defined.

(** C7, as stated, fails. Under cookies a value with [=] in it comes back
    cut at the [=]: the reader takes the second piece of the row. Under
    the storages an empty value comes back as ["true"]. *)
Lemma tracked_value_differs :
  isTracked cookie_tracker "k"
    (track cookie_tracker "k" (Some "a=b") fresh) = Some "a" ∧
  isTracked session_tracker "k"
    (track session_tracker "k" (Some "") fresh) = Some "true".
Proof. split; reflexivity. Qed.

Lemma reset_scope_witness :
  (cookies (reset cookie_tracker jar)
     = filter (λ c, startsWith c.1 (prefix cookie_tracker +:+ "_") = false)
         (cookies jar)
   ∧ sessionStorage (reset cookie_tracker jar) = sessionStorage jar
   ∧ localStorage (reset cookie_tracker jar) = localStorage jar) ∧
  (sessionStorage (reset session_tracker jar) = ∅
   ∧ localStorage (reset session_tracker jar) = localStorage jar
   ∧ cookies (reset session_tracker jar) = cookies jar) ∧
  (localStorage (reset local_tracker jar) = ∅
   ∧ sessionStorage (reset local_tracker jar) = sessionStorage jar
   ∧ cookies (reset local_tracker jar) = cookies jar).
Proof.
  split; [|split].
  - exact (proj1 (reset_scope cookie_tracker jar jar_ok_sample) eq_refl).
  - exact (proj1 (proj2 (reset_scope session_tracker jar jar_ok_sample))
             eq_refl).
  - exact (proj2 (proj2 (reset_scope local_tracker jar jar_ok_sample))
             eq_refl).
Defined.

(** What is left of the sample jar, and of the stores, after a reset. *)
Example reset_sample_cookies :
  cookies (reset cookie_tracker jar) = [("theme", "dark"); ("tracker", "1")].
Proof. reflexivity. Qed.

Example reset_sample_session :
  sessionStorage (reset session_tracker jar) = ∅ ∧
  cookies (reset session_tracker jar) = cookies jar.
Proof. done. Qed.

End TrackerSamples.

(** ** More about the tracker *)

Section TrackerMore.
Import WfuTracker.

(** [untrack] under cookies: the write with the epoch date removes the
    cookie of the namespaced key. *)
Lemma assign_untrack (k : string) (jar : list (string * string)) :
  name_ok k →
  cookie_assign (k +:+ "= ; expires = Thu, 01 Jan 1970 00:00:00 GMT") jar
    = alist_remove k jar.
Proof.
  intros (Hn & Ht & He & Hs & Hc). unfold cookie_assign.
  rewrite has_ctl_app, Hc. cbn [orb].
  change (has_ctl "= ; expires = Thu, 01 Jan 1970 00:00:00 GMT") with false.
  cbn iota.
  change "= ; expires = Thu, 01 Jan 1970 00:00:00 GMT"
    with ("= " +:+ String ";" " expires = Thu, 01 Jan 1970 00:00:00 GMT").
  rewrite <- app_assoc.
  rewrite cut_app by by rewrite has_char_app, Hs.
  change (k +:+ "= ") with (k +:+ String "=" " ").
  rewrite cut_app by done. rewrite Ht.
  apply String.eqb_neq in Hn as ->. done.
Qed.

Lemma prefix_app_l (p k s : string) :
  String.prefix (p +:+ k) s = true → String.prefix p s = true.
Proof.
  revert s. induction p as [|a p IH]; intros s;
    [intros _; apply prefix_empty|].
  rewrite app_String. destruct s as [|b s]; [done|].
  rewrite !prefix_cons. intros [-> ?]%andb_true_iff. simpl. eauto.
Qed.

(** No row of the jar starts with [k] when no name does. *)
Lemma find_no_row (k : string) (jar : list (string * string)) :
  has_char "=" k = false →
  (∀ c, c ∈ jar → startsWith c.1 k = false) →
  List.find (λ r, startsWith r k) (map row jar) = None.
Proof.
  intros Hk. induction jar as [|c jar IH]; intros Hjar; [done|]. simpl.
  destruct (startsWith (row c) k) eqn:S.
  - apply prefix_row in S; [|done].
    pose proof (Hjar c ltac:(by left)) as N. unfold startsWith in N.
    congruence.
  - apply IH. intros c' Hc'. apply Hjar. by right.
Qed.

Lemma cookie_lookup_none (cfg : Config) (key : string) (b : Browser) :
  jar_ok (cookies b) →
  has_char "=" (trackKey cfg key) = false →
  (∀ c, c ∈ cookies b → startsWith c.1 (trackKey cfg key) = false) →
  cookie_lookup cfg key b = None.
Proof.
  intros Hj Hk Hno. unfold cookie_lookup, document_cookie.
  destruct (cookies b) as [|c jar] eqn:E.
  - unfold trackKey. simpl. by destruct (prefix cfg).
  - rewrite split_rows by done. by rewrite find_no_row.
Qed.

Lemma elem_of_alist_remove (n : string) (c : string * string)
    (jar : list (string * string)) :
  c ∈ alist_remove n jar ↔ c.1 ≠ n ∧ c ∈ jar.
Proof. unfold alist_remove. by rewrite list_elem_of_filter. Qed.

(** X1. [untrack] and then [isTracked] of the same key answers nothing,
    under each of the three methods; under cookies when the namespaced key
    is a cookie name as the platform keeps it and no other cookie's name
    starts with it. *)
Theorem untrack_then_isTracked (cfg : Config) (key : string) (b : Browser) :
  method cfg = "sessionStorage" ∨ method cfg = "localStorage"
    ∨ method cfg = "cookies" →
  (method cfg = "cookies" →
     jar_ok (cookies b) ∧ name_ok (trackKey cfg key) ∧
     ∀ c, c ∈ cookies b →
          startsWith c.1 (trackKey cfg key) = true →
          c.1 = trackKey cfg key) →
  isTracked cfg key (untrack cfg key b) = None.
Proof.
  intros [Hm|[Hm|Hm]] Hc.
  - unfold isTracked, untrack. rewrite (switch_sessionStorage _ Hm).
    apply lookup_delete_eq.
  - unfold isTracked, untrack. rewrite (switch_localStorage _ Hm).
    apply lookup_delete_eq.
  - destruct (Hc Hm) as (Hj & Hk & Hu).
    unfold isTracked. rewrite (switch_cookies _ Hm).
    apply cookie_lookup_none.
    + unfold untrack. rewrite (switch_cookies _ Hm). simpl.
      rewrite assign_untrack by done. by apply alist_remove_ok.
    + by destruct Hk as (_ & _ & ? & _).
    + unfold untrack. rewrite (switch_cookies _ Hm). simpl.
      rewrite assign_untrack by done.
      intros c [Hne Hin]%elem_of_alist_remove.
      destruct (startsWith c.1 (trackKey cfg key)) eqn:S; [|done].
      by apply Hu in S.
Qed.

Lemma trackKey_inj (cfg : Config) (k1 k2 : string) :
  trackKey cfg k1 = trackKey cfg k2 → k1 = k2.
Proof.
  unfold trackKey. intros E.
  apply (inj (String.app (prefix cfg))) in E.
  by apply (inj (String.app "_")) in E.
Qed.

(** X2. Under the two storages a flag is its own: [track] and [untrack] of
    one key leave what [isTracked] answers for every other key. *)
Theorem other_key_untouched (cfg : Config) (key key' : string)
    (val : option string) (b : Browser) :
  method cfg = "sessionStorage" ∨ method cfg = "localStorage" →
  key' ≠ key →
  isTracked cfg key' (track cfg key val b) = isTracked cfg key' b ∧
  isTracked cfg key' (untrack cfg key b) = isTracked cfg key' b.
Proof.
  intros Hm Hne.
  assert (trackKey cfg key ≠ trackKey cfg key') as Hk.
  { intros E. by apply trackKey_inj in E. }
  unfold isTracked, track, untrack, storage_getItem.
  destruct Hm as [Hm|Hm].
  - rewrite (switch_sessionStorage _ Hm). simpl.
    by rewrite lookup_insert_ne, lookup_delete_ne.
  - rewrite (switch_localStorage _ Hm). simpl.
    by rewrite lookup_insert_ne, lookup_delete_ne.
Qed.

Lemma prefix_app_r (k k' s : string) :
  String.prefix k k' = true → String.prefix k (k' +:+ s) = true.
Proof.
  revert k'. induction k as [|a k IH]; intros k';
    [intros _; apply prefix_empty|].
  destruct k' as [|a' k']; [done|].
  rewrite app_String, !prefix_cons.
  intros [-> ?]%andb_true_iff. simpl. eauto.
Qed.

Lemma find_row_longer (k k' v : string) (jar : list (string * string)) :
  has_char "=" k = false →
  String.prefix k k' = true →
  (∀ c, c ∈ jar → startsWith c.1 k = false) →
  List.find (λ r, startsWith r k) (map row (alist_set k' v jar))
    = Some (row (k', v)).
Proof.
  intros Hk Hp. induction jar as [|c jar IH]; intros Hjar; simpl.
  - unfold startsWith, row. simpl. by rewrite prefix_app_r.
  - pose proof (Hjar c ltac:(by left)) as N.
    destruct (String.eqb c.1 k') eqn:E; simpl.
    + apply String.eqb_eq in E. rewrite E in N. unfold startsWith in N.
      congruence.
    + destruct (startsWith (row c) k) eqn:S.
      * apply prefix_row in S; [|done]. unfold startsWith in N. congruence.
      * apply IH. intros c' Hc'. apply Hjar. by right.
Qed.

(** X3. Under cookies [isTracked] matches rows by their beginning: once a
    key that extends [key] is tracked, where the cookie store can hold the
    flag of the longer key ([cookie_trackable]: a well-formed jar, a
    namespaced longer key that is a cookie name as the platform keeps it, a
    value without [=], [;], control characters and white space around it,
    no other cookie's name starting with the namespaced longer key) and no
    cookie's name started with the namespaced [key] before, [isTracked key]
    answers the value of the longer key, although [key] itself was never
    tracked. *)
Theorem longer_key_answers (cfg : Config) (key more : string)
    (val : option string) (b : Browser) :
  method cfg = "cookies" →
  cookie_trackable cfg (key +:+ more) val b →
  (∀ c, c ∈ cookies b → startsWith c.1 (trackKey cfg key) = false) →
  isTracked cfg key (track cfg (key +:+ more) val b) = Some (or_true val).
Proof.
  intros Hm Hc Hno. pose proof Hc as (Hj & Hk & Hs & He & Hvc & Ht & Hu).
  assert (trackKey cfg (key +:+ more) = trackKey cfg key +:+ more) as Ek.
  { unfold trackKey. by rewrite !app_assoc. }
  assert (has_char "=" (trackKey cfg key) = false) as Hke.
  { destruct Hk as (_ & _ & Hk & _). rewrite Ek, has_char_app in Hk.
    by apply orb_false_elim in Hk as [? _]. }
  unfold isTracked. rewrite (switch_cookies _ Hm).
  unfold cookie_lookup, document_cookie.
  rewrite (track_cookie _ _ _ _ Hm Hc).
  rewrite split_rows; [|by apply alist_set_ok|apply alist_set_not_nil].
  rewrite find_row_longer; [|done|rewrite Ek; apply prefix_app|done].
  unfold row. simpl.
  change ("=" +:+ or_true val) with (String "=" (or_true val)).
  destruct Hk as (_ & _ & Hk & _).
  rewrite split_char_app by done. by rewrite split_char_none.
Qed.

(** X4. After [reset] no key of the tracker is tracked; under cookies for
    a well-formed jar and a prefix without [=]. *)
Theorem reset_then_isTracked (cfg : Config) (key : string) (b : Browser) :
  method cfg = "sessionStorage" ∨ method cfg = "localStorage"
    ∨ method cfg = "cookies" →
  (method cfg = "cookies" →
     jar_ok (cookies b) ∧ has_char "=" (prefix cfg) = false) →
  isTracked cfg key (reset cfg b) = None.
Proof.
  intros [Hm|[Hm|Hm]] Hc.
  - unfold isTracked, reset. by rewrite (switch_sessionStorage _ Hm).
  - unfold isTracked, reset. by rewrite (switch_localStorage _ Hm).
  - destruct (Hc Hm) as [Hj Hp].
    destruct (reset_cookies cfg b Hj Hm) as (Ej & _ & _).
    assert (has_char "=" (prefix cfg +:+ "_") = false) as Hp'.
    { by rewrite has_char_app, Hp. }
    unfold isTracked. rewrite (switch_cookies _ Hm).
    unfold cookie_lookup, document_cookie. rewrite Ej.
    set (jar' := filter _ (cookies b)).
    assert (jar_ok jar') as Hj'.
    { unfold jar_ok in *. subst jar'. clear -Hj.
      induction Hj as [|c jar Hc' Hj IH]; [constructor|].
      rewrite filter_cons. case_decide; [by constructor|done]. }
    assert (List.find (λ r, startsWith r (trackKey cfg key)) (map row jar')
            = None) as Hf.
    { assert (∀ c, c ∈ jar' →
                   startsWith (row c) (trackKey cfg key) = false) as Hno.
      { intros c [Hc' _]%list_elem_of_filter.
        destruct (startsWith (row c) (trackKey cfg key)) eqn:S; [|done].
        unfold startsWith, trackKey in S. rewrite <- app_assoc in S.
        apply prefix_app_l, prefix_row in S; [|done].
        unfold startsWith in Hc'. congruence. }
      clear -Hno. induction jar' as [|c jar IH]; [done|]. simpl.
      rewrite (Hno c) by by left. apply IH. intros; apply Hno. by right. }
    destruct jar' as [|c jar] eqn:E.
    + unfold trackKey. simpl. by destruct (prefix cfg).
    + rewrite split_rows by done. by rewrite Hf.
Qed.

Lemma switch_other (cfg : Config) :
  method cfg ≠ "sessionStorage" → method cfg ≠ "localStorage" →
  method cfg ≠ "cookies" → switch cfg = Other.
Proof.
  intros H1 H2 H3. unfold switch.
  apply String.eqb_neq in H1 as ->. apply String.eqb_neq in H2 as ->.
  by apply String.eqb_neq in H3 as ->.
Qed.

(** X5. A tracker whose [method] is none of the three names does nothing at
    all: every write leaves the browser as it is and every read answers
    nothing. *)
Theorem unknown_method_inert (cfg : Config) (key : string)
    (val : option string) (b : Browser) :
  method cfg ≠ "sessionStorage" → method cfg ≠ "localStorage" →
  method cfg ≠ "cookies" →
  track cfg key val b = b ∧ untrack cfg key b = b ∧ reset cfg b = b ∧
  isTracked cfg key b = None ∧ getItem cfg key b = None.
Proof.
  intros H1 H2 H3. unfold track, untrack, reset, isTracked, getItem.
  by rewrite (switch_other cfg H1 H2 H3).
Qed.

Lemma alist_set_set (n v w : string) (l : list (string * string)) :
  alist_set n w (alist_set n v l) = alist_set n w l.
Proof.
  induction l as [|c l IH]; simpl.
  - by rewrite String.eqb_refl.
  - destruct (String.eqb c.1 n) eqn:E; simpl.
    + by rewrite String.eqb_refl.
    + by rewrite E, IH.
Qed.

(** X6. The last [track] of a key wins: tracking a key twice leaves the
    browser as tracking it once with the second value does; under cookies
    for a namespaced key that is a cookie name and values free of [;] and
    of control characters. *)
Theorem track_twice (cfg : Config) (key : string) (v w : option string)
    (b : Browser) :
  (method cfg = "cookies" →
     name_ok (trackKey cfg key) ∧
     has_char ";" (or_true v) = false ∧ has_ctl (or_true v) = false ∧
     has_char ";" (or_true w) = false ∧ has_ctl (or_true w) = false) →
  track cfg key w (track cfg key v b) = track cfg key w b.
Proof.
  intros Hc. unfold track.
  destruct (switch cfg) eqn:Sw; try done.
  - unfold set_session. simpl. by rewrite insert_insert_eq.
  - unfold set_local. simpl. by rewrite insert_insert_eq.
  - assert (method cfg = "cookies") as Hm.
    { unfold switch in Sw.
      destruct (String.eqb (method cfg) "sessionStorage"); [done|].
      destruct (String.eqb (method cfg) "localStorage"); [done|].
      destruct (String.eqb (method cfg) "cookies") eqn:E; [|done].
      by apply String.eqb_eq in E. }
    destruct (Hc Hm) as (Hk & Hv1 & Hv2 & Hw1 & Hw2).
    assert (∀ x, prefix cfg +:+ "_" +:+ key +:+ "=" +:+ x
                 = trackKey cfg key +:+ "=" +:+ x) as Ek.
    { intros x. unfold trackKey. by rewrite !app_assoc. }
    unfold set_document_cookie, set_cookies. simpl.
    rewrite !Ek, !assign_set by done. by rewrite alist_set_set.
Qed.

End TrackerMore.

Section TrackerAndMembership.
Import WfuTracker.
Context `{P : Platform}.

Lemma trackKey_underscore (cfg : Config) (key : string) :
  has_char "_" (trackKey cfg key) = true.
Proof.
  unfold trackKey. rewrite has_char_app.
  change ("_" +:+ key) with (String "_" key). simpl. apply orb_true_r.
Qed.

Lemma trackKey_not_membership (cfg : Config) (key : string) :
  trackKey cfg key ≠ "wfuUser" ∧ trackKey cfg key ≠ "wfuUserKey".
Proof.
  pose proof (trackKey_underscore cfg key) as U.
  split; intros E; by rewrite E in U.
Qed.

Lemma loadUserInfoCache_lookup (b b' : Browser) :
  sessionStorage b' !! "wfuUser" = sessionStorage b !! "wfuUser" →
  Sa5Membership.loadUserInfoCache b' = Sa5Membership.loadUserInfoCache b.
Proof.
  intros E. unfold Sa5Membership.loadUserInfoCache, storage_getItem.
  unfold Sa5Membership.StorageKeys_user. by rewrite E.
Qed.

(** X7. The tracker never reaches the entries of the membership cache:
    whatever the method, the prefix and the key, [track] and [untrack] leave
    what [loadUserInfoCache] and [getUserKey] answer, because a namespaced
    key always holds an underscore and ['wfuUser'] and ['wfuUserKey'] hold
    none. *)
Theorem tracker_spares_membership (cfg : Config) (key : string)
    (val : option string) (b : Browser) :
  Sa5Membership.loadUserInfoCache (track cfg key val b)
    = Sa5Membership.loadUserInfoCache b ∧
  Sa5Membership.getUserKey (track cfg key val b)
    = Sa5Membership.getUserKey b ∧
  Sa5Membership.loadUserInfoCache (untrack cfg key b)
    = Sa5Membership.loadUserInfoCache b ∧
  Sa5Membership.getUserKey (untrack cfg key b)
    = Sa5Membership.getUserKey b.
Proof.
  destruct (trackKey_not_membership cfg key) as [N1 N2].
  unfold track, untrack.
  destruct (switch cfg); repeat split;
    try (apply loadUserInfoCache_lookup); try (apply getUserKey_local);
    simpl; by rewrite ?lookup_insert_ne, ?lookup_delete_ne.
Qed.

(** X8. [reset] under the session storage takes the cached profile of the
    membership code with it, and under the local storage the identity key:
    afterwards [loadUserInfoCache], respectively [getUserKey], finds
    nothing. *)
Theorem reset_drops_membership (cfg : Config) (b : Browser) :
  (method cfg = "sessionStorage" →
     Sa5Membership.loadUserInfoCache (reset cfg b) = Normal None) ∧
  (method cfg = "localStorage" →
     Sa5Membership.getUserKey (reset cfg b) = Normal None).
Proof.
  split; intros Hm; unfold reset.
  - by rewrite (switch_sessionStorage _ Hm).
  - by rewrite (switch_localStorage _ Hm).
Qed.

End TrackerAndMembership.

(** ** More about the poster mirror *)

Section PosterMirrorMore.
Import WebflowVideo.

Lemma mirror_selected (e : Element) :
  selected e = true → selected (mirror e) = true.
Proof.
  intros S. pose proof S as [Hd Hs]%selected_spec.
  apply selected_spec. split; [done|].
  unfold mirror. by rewrite getAttribute_setAttribute_ne.
Qed.

Lemma mirror_mirror (e : Element) : mirror (mirror e) = mirror e.
Proof.
  unfold mirror at 1.
  assert (getAttribute "wfu-data-poster-url" (mirror e)
          = getAttribute "wfu-data-poster-url" e) as ->.
  { unfold mirror. by rewrite getAttribute_setAttribute_ne. }
  unfold mirror, setAttribute. simpl. by rewrite alist_set_set.
Qed.

(** X9. The mirror is idempotent: running it a second time changes
    nothing. *)
Theorem mirror_twice (doc : list Element) :
  processAllDataPosterUrls (processAllDataPosterUrls doc)
    = processAllDataPosterUrls doc.
Proof.
  unfold processAllDataPosterUrls. rewrite map_map.
  apply map_ext. intros e. destruct (selected e) eqn:S.
  - by rewrite mirror_selected, mirror_mirror.
  - by rewrite S.
Qed.

End PosterMirrorMore.

(** ** More about the membership cache *)

Section MembershipMore.
Import Sa5Membership.
Context `{P : Platform}.

Lemma merge_merge_same (c p : Sa5User) : merge (merge c p) p = merge c p.
Proof.
  rewrite !merge_fields. simpl.
  destruct (user_data_loaded p) as [p1 p2 p3 p4],
           (user_data_loaded c) as [c1 c2 c3 c4]. simpl.
  f_equal.
  - by destruct (p1 || p2).
  - by destruct p2.
  - by destruct p2.
  - by destruct p3.
  - f_equal; rewrite <- orb_assoc; f_equal; apply orb_diag.
Qed.

(** X10. Caching the same partial profile twice stores what caching it
    once stores. *)
Theorem save_twice (cfg : Config) (p : Sa5User) (b : Browser) :
  stored_truthy → stored_roundtrip →
  sessionStorage (merges cfg [p; p] b) = sessionStorage (merges cfg [p] b) ∧
  localStorage (merges cfg [p; p] b) = localStorage (merges cfg [p] b).
Proof.
  intros Ht Hr. unfold merges. cbn [fold_left].
  split; [|by rewrite !saveUserInfoCache_local].
  destruct (loadUserInfoCache b) as [c|] eqn:Hc.
  - pose proof (loadUserInfoCache_saved cfg p _ _ Ht Hr Hc) as Hp.
    rewrite (saveUserInfoCache_session _ _ _ _ Hp).
    rewrite !(saveUserInfoCache_session _ _ _ _ Hc).
    rewrite insert_insert_eq.
    change (default blank_user (Some ?u)) with u.
    by rewrite merge_merge_same.
  - rewrite (saveUserInfoCache_throw cfg p b Hc). cbn [snd].
    by rewrite (saveUserInfoCache_throw cfg p b Hc).
Qed.

(** X11. A partial profile without any loaded flag contributes nothing:
    what is read back after caching it is the profile that was cached
    before, and a blank profile when there was none. *)
Theorem flagless_partial (cfg : Config) (p : Sa5User)
    (cached : option Sa5User) (b : Browser) :
  stored_truthy → stored_roundtrip →
  loadUserInfoCache b = Normal cached →
  user_data_loaded p = blank_flags →
  loadUserInfoCache (saveUserInfoCache cfg p b).2
    = Normal (Some (default blank_user cached)).
Proof.
  intros Ht Hr Hc Hp.
  rewrite (loadUserInfoCache_saved _ _ _ _ Ht Hr Hc).
  rewrite merge_fields, Hp. simpl.
  destruct (default blank_user cached) as [e n a d [f1 f2 f3 f4]]. simpl.
  by rewrite !orb_false_r.
Qed.

Lemma loadUserInfoCache_corrupt (s : string) (b : Browser) :
  sessionStorage b !! "wfuUser" = Some s → s ≠ "" →
  atob s ≫= JSON_parse_user = None →
  loadUserInfoCache b = Throw.
Proof.
  intros E Hs Hd. unfold loadUserInfoCache, storage_getItem, StorageKeys_user.
  rewrite E. cbn [isLoggedIn_ref truthy negb].
  rewrite truthy_item_Some by done. simpl. by rewrite Hd.
Qed.

(** X12. A stored profile that does not decode is not taken for an empty
    cache: [saveUserInfoCache], logged in or not, and [readyUserInfo] of a
    logged-in visitor, end in the exception and leave the browser as it was,
    nothing cached, nobody notified, nothing fetched. *)
Theorem corrupt_cache_throws (cfg : Config) (p : Sa5User) (s : string)
    (b : Browser) :
  sessionStorage b !! "wfuUser" = Some s → s ≠ "" →
  atob s ≫= JSON_parse_user = None →
  saveUserInfoCache cfg p b = (Throw, b) ∧
  (truthy (isLoggedIn b) = true → readyUserInfo cfg b = (Throw, b)).
Proof.
  intros E Hs Hd.
  pose proof (loadUserInfoCache_corrupt s b E Hs Hd) as Hc.
  split; [by apply saveUserInfoCache_throw|].
  intros L. unfold readyUserInfo. by rewrite L, Hc.
Qed.

(** What a save adds to the log. *)
Lemma saveUserInfoCache_log (cfg : Config) (p : Sa5User)
    (cached : option Sa5User) (b : Browser) :
  loadUserInfoCache b = Normal cached →
  log (saveUserInfoCache cfg p b).2 =
    (log b
     ++ (if dataBind cfg
         then [EvDataBind (merge (default blank_user cached) p)] else [])
     ++ (if userInfoUpdatedCallback cfg
         then [EvCallback (merge (default blank_user cached) p)] else []))%list.
Proof.
  intros Hc. rewrite saveUserInfoCache_unfold, Hc. cbn zeta.
  destruct (dataBind cfg), (userInfoUpdatedCallback cfg); simpl;
    by rewrite ?List.app_nil_r, <- ?List.app_assoc.
Qed.

(** X13. Every save hands to the data binder (when [dataBind] is on) and
    to the update callback (when one is configured) exactly the merged
    profile that it has just stored, each once, and launches nothing. *)
Theorem save_notifies_what_it_stored (cfg : Config) (p : Sa5User)
    (cached : option Sa5User) (b : Browser) :
  stored_truthy → stored_roundtrip →
  loadUserInfoCache b = Normal cached →
  ∃ (merged : Sa5User) (new : list Event),
    loadUserInfoCache (saveUserInfoCache cfg p b).2 = Normal (Some merged) ∧
    log (saveUserInfoCache cfg p b).2 = (log b ++ new)%list ∧
    databind_calls new = (if dataBind cfg then [merged] else []) ∧
    callback_calls new
      = (if userInfoUpdatedCallback cfg then [merged] else []) ∧
    launched new = [].
Proof.
  intros Ht Hr Hc. eexists _, _.
  split; [by apply loadUserInfoCache_saved|].
  split; [by apply saveUserInfoCache_log|].
  by destruct (dataBind cfg), (userInfoUpdatedCallback cfg).
Qed.

(** X14. [clearUserInfo] removes its two entries, ['wfuUser'] of the
    session storage and ['wfuUserKey'] of the local storage, and nothing
    else, and a second call changes nothing. *)
Theorem clearUserInfo_scope (b : Browser) :
  sessionStorage (clearUserInfo b) !! "wfuUser" = None ∧
  localStorage (clearUserInfo b) !! "wfuUserKey" = None ∧
  (∀ k, k ≠ "wfuUser" →
        sessionStorage (clearUserInfo b) !! k = sessionStorage b !! k) ∧
  (∀ k, k ≠ "wfuUserKey" →
        localStorage (clearUserInfo b) !! k = localStorage b !! k) ∧
  cookies (clearUserInfo b) = cookies b ∧
  log (clearUserInfo b) = log b ∧
  clearUserInfo (clearUserInfo b) = clearUserInfo b.
Proof.
  unfold clearUserInfo, set_local, set_session. simpl.
  split; [apply lookup_delete_eq|]. split; [apply lookup_delete_eq|].
  split; [intros k Hk; by rewrite lookup_delete_ne|].
  split; [intros k Hk; by rewrite lookup_delete_ne|].
  split; [done|]. split; [done|].
  by rewrite !delete_delete_eq.
Qed.

End MembershipMore.

(** ** Launching the fetches *)

Section Loading.
Import Sa5Membership.
Context `{P : Platform}.

(** The browser when the three fetches have been launched. *)
Lemma loadUserInfoAsync_logged_in (cfg : Config) (b : Browser) :
  truthy (isLoggedIn b) = true →
  loadUserInfoAsync cfg b =
    (loadUserInfoAsync_loginInfo cfg
       (emit (EvLaunch AccessGroups)
          (emit (EvLaunch AccountInfo)
             (emit (EvLaunch LoginInfo)
                (set_session (delete "wfuUser" (sessionStorage b)) b))))).2.
Proof. intros L. unfold loadUserInfoAsync. by rewrite L. Qed.

(** X15. The login-key layer. For a logged-in visitor whose identity key
    is stored under ['wfuUserKey'] and decodes to a non-empty e-mail,
    [loadUserInfoAsync] drops the old cache, launches the three fetches in
    the order login key, account page, access groups, and then caches a
    profile that holds just that e-mail with just the [email] flag set, which
    the data binder and the callback get once. *)
Theorem loadUserInfoAsync_with_key (cfg : Config) (enc userEmail : string)
    (b : Browser) :
  stored_truthy → stored_roundtrip →
  truthy (isLoggedIn b) = true →
  localStorage b !! "wfuUserKey" = Some enc → enc ≠ "" →
  atob enc = Some userEmail → userEmail ≠ "" →
  let user :=
    mkUser (Some userEmail) None None ∅ (mkFlags true false false false) in
  loadUserInfoCache (loadUserInfoAsync cfg b) = Normal (Some user) ∧
  ∃ new : list Event,
    log (loadUserInfoAsync cfg b) = (log b ++ new)%list ∧
    launched new = [LoginInfo; AccountInfo; AccessGroups] ∧
    databind_calls new = (if dataBind cfg then [user] else []) ∧
    callback_calls new = (if userInfoUpdatedCallback cfg then [user] else []).
Proof.
  intros Ht Hr L E Henc Hd Hne user.
  rewrite (loadUserInfoAsync_logged_in _ _ L).
  set (b3 := emit _ _).
  assert (getUserKey b3 = Normal (Some userEmail)) as Hk.
  { unfold getUserKey, storage_getItem, StorageKeys_userKey. simpl.
    rewrite E, truthy_item_Some by done. simpl. by rewrite Hd. }
  assert (loadUserInfoCache b3 = Normal None) as Hc.
  { unfold loadUserInfoCache, storage_getItem, StorageKeys_user. simpl.
    by rewrite lookup_delete_eq. }
  unfold loadUserInfoAsync_loginInfo. rewrite Hk.
  destruct userEmail as [|a e]; [done|]. cbn [snd].
  split.
  - by rewrite (loadUserInfoCache_saved _ _ _ _ Ht Hr Hc).
  - rewrite (saveUserInfoCache_log _ _ _ _ Hc). simpl.
    eexists. rewrite <- !List.app_assoc. split; [reflexivity|].
    by destruct (dataBind cfg), (userInfoUpdatedCallback cfg).
Qed.

(** X16. Without an identity key (nothing, or the empty string, under
    ['wfuUserKey']) [loadUserInfoAsync] of a logged-in visitor drops the old
    cache, launches the three fetches and caches nothing: no profile is
    stored, nobody is notified, the local storage stays as it was. *)
Theorem loadUserInfoAsync_without_key (cfg : Config) (b : Browser) :
  truthy (isLoggedIn b) = true →
  localStorage b !! "wfuUserKey" = None
    ∨ localStorage b !! "wfuUserKey" = Some "" →
  sessionStorage (loadUserInfoAsync cfg b)
    = delete "wfuUser" (sessionStorage b) ∧
  localStorage (loadUserInfoAsync cfg b) = localStorage b ∧
  log (loadUserInfoAsync cfg b)
    = (log b ++ [EvLaunch LoginInfo; EvLaunch AccountInfo;
                 EvLaunch AccessGroups])%list.
Proof.
  intros L E. rewrite (loadUserInfoAsync_logged_in _ _ L).
  set (b3 := emit _ _).
  assert (getUserKey b3 = Normal None) as Hk.
  { unfold getUserKey, storage_getItem, StorageKeys_userKey. simpl.
    by destruct E as [-> | ->]. }
  unfold loadUserInfoAsync_loginInfo. rewrite Hk. simpl.
  by rewrite <- !List.app_assoc.
Qed.

(** X17. [loadUserInfoAsync] of a visitor who is not logged in clears the
    cache and the identity key and launches nothing. *)
Theorem loadUserInfoAsync_logged_out (cfg : Config) (b : Browser) :
  truthy (isLoggedIn b) = false →
  loadUserInfoAsync cfg b = clearUserInfo b ∧
  sessionStorage (loadUserInfoAsync cfg b) !! "wfuUser" = None ∧
  localStorage (loadUserInfoAsync cfg b) !! "wfuUserKey" = None ∧
  log (loadUserInfoAsync cfg b) = log b.
Proof.
  intros L. unfold loadUserInfoAsync. rewrite L. simpl.
  split; [done|]. split; [apply lookup_delete_eq|].
  split; [apply lookup_delete_eq|done].
Qed.

Lemma loadUserInfoAsync_loginInfo_log (cfg : Config) (b : Browser) :
  ∃ more : list Event,
    log (loadUserInfoAsync_loginInfo cfg b).2 = (log b ++ more)%list ∧
    launched more = [].
Proof.
  unfold loadUserInfoAsync_loginInfo.
  destruct (getUserKey b) as [[[|a k]|]|];
    try (exists []; by rewrite List.app_nil_r).
  cbn [snd].
  destruct (loadUserInfoCache b) as [c|] eqn:Hc.
  - rewrite (saveUserInfoCache_log _ _ _ _ Hc). eexists. split; [done|].
    by destruct (dataBind cfg), (userInfoUpdatedCallback cfg).
  - rewrite (saveUserInfoCache_throw _ _ _ Hc).
    exists []. by rewrite List.app_nil_r.
Qed.

(** X18. With somebody logged in and nothing (or the empty string) under
    ['wfuUser'], [readyUserInfo] launches each of the three fetches once, in
    the order login key, account page, access groups, whatever the identity
    key is. *)
Theorem readyUserInfo_without_cache (cfg : Config) (b : Browser) :
  truthy (isLoggedIn b) = true →
  sessionStorage b !! "wfuUser" = None
    ∨ sessionStorage b !! "wfuUser" = Some "" →
  (readyUserInfo cfg b).1 = Normal JsUndefined ∧
  ∃ new : list Event,
    log (readyUserInfo cfg b).2 = (log b ++ new)%list ∧
    launched new = [LoginInfo; AccountInfo; AccessGroups].
Proof.
  intros L E.
  assert (loadUserInfoCache b = Normal None) as Hc.
  { unfold loadUserInfoCache, storage_getItem, StorageKeys_user.
    by destruct E as [-> | ->]. }
  unfold readyUserInfo. rewrite L, Hc. simpl. split; [done|].
  rewrite (loadUserInfoAsync_logged_in _ _ L).
  destruct (loadUserInfoAsync_loginInfo_log cfg
              (emit (EvLaunch AccessGroups)
                 (emit (EvLaunch AccountInfo)
                    (emit (EvLaunch LoginInfo)
                       (set_session (delete "wfuUser" (sessionStorage b))
                          b))))) as (more & -> & Hm).
  simpl. rewrite <- !List.app_assoc. eexists. split; [reflexivity|].
  simpl. by rewrite Hm.
Qed.

(** X19. In a run of the module that starts without an entry under
    ['wfuUserKey'], whatever is submitted, cached or cleared on the way,
    [getUserKey] answers [undefined] at the end: no call of the module
    writes the key that [getUserKey] reads. *)
Theorem getUserKey_never_set (cfg : Config) (b b' : Browser) :
  rtc (step cfg) b b' →
  localStorage b !! "wfuUserKey" = None →
  getUserKey b' = Normal None.
Proof.
  intros R A. pose proof (run_keeps_userKey_absent cfg b b' R A) as A'.
  unfold getUserKey, storage_getItem, StorageKeys_userKey. by rewrite A'.
Qed.

End Loading.

(** ** The account scrape *)

Section AccountScrape.
Import Sa5Membership AccountInfo.

Lemma assign_eq (id : string) (x : option (string + bool))
    (d : gmap string (string + bool)) :
  assign id x d !! id = x.
Proof.
  destruct x; simpl; [apply lookup_insert_eq|apply lookup_delete_eq].
Qed.

Lemma assign_ne (id i : string) (x : option (string + bool))
    (d : gmap string (string + bool)) :
  id ≠ i → assign id x d !! i = d !! i.
Proof.
  intros. destruct x; simpl; by rewrite ?lookup_insert_ne, ?lookup_delete_ne.
Qed.

Lemma field_step_other (d : gmap string (string + bool)) (c : Control)
    (i : string) :
  element_id c ≠ i → field_step d c !! i = d !! i.
Proof.
  intros Hne. unfold field_step.
  destruct (String.eqb (element_id c) ""); [done|].
  destruct (startsWith (element_id c) "wf-user-account-"); [done|].
  destruct (getAttribute "data-wf-user-field-type" (element c)) as [t|];
    [|done].
  repeat (match goal with
          | |- context [if ?x then _ else _] => destruct x
          end; rewrite ?assign_ne by done; try done).
Qed.

Lemma fold_field_step_keeps (fields : list Control)
    (d : gmap string (string + bool)) (i : string) :
  (∀ c d', c ∈ fields → field_step d' c !! i = d' !! i) →
  fold_left field_step fields d !! i = d !! i.
Proof.
  revert d. induction fields as [|c fields IH]; intros d H; [done|].
  simpl. rewrite IH.
  - apply H. by left.
  - intros c' d' Hc'. apply H. by right.
Qed.

(** X20. The scrape never takes a field without an [id], nor one whose
    [id] starts with [wf-user-account-], into the custom fields: under such
    a key [user.data] stays as it was, whatever the page holds. *)
Theorem reserved_ids_skipped (fields : list Control)
    (d : gmap string (string + bool)) (i : string) :
  i = "" ∨ startsWith i "wf-user-account-" = true →
  fold_left field_step fields d !! i = d !! i.
Proof.
  intros Hi. apply fold_field_step_keeps. intros c d' _.
  destruct (decide (element_id c = i)) as [E|E];
    [|by apply field_step_other].
  unfold field_step. rewrite E.
  destruct Hi as [-> | ->]; [done|]. by destruct (String.eqb i "").
Qed.

(** The six field types the scrape stores. *)
Lemma field_step_untyped (d : gmap string (string + bool)) (c : Control) :
  (∀ t, getAttribute "data-wf-user-field-type" (element c) = Some t →
        t ∉ ["PlainText"; "Email"; "Link"; "Option"; "Number"; "Bool"]) →
  field_step d c = d.
Proof.
  intros Ht. unfold field_step.
  destruct (String.eqb (element_id c) ""); [done|].
  destruct (startsWith (element_id c) "wf-user-account-"); [done|].
  destruct (getAttribute "data-wf-user-field-type" (element c)) as [t|];
    [|done].
  specialize (Ht t eq_refl).
  assert (∀ x, x ∈ ["PlainText"; "Email"; "Link"; "Option"; "Number"; "Bool"]
               → String.eqb t x = false) as N.
  { intros x Hx. apply String.eqb_neq. intros ->. done. }
  rewrite !N; [done|set_solver..].
Qed.

(** X21. A field whose type is [FileRef], or any other than the six the
    scrape knows, or that has no type at all, is skipped: when every field
    with a given [id] is of that kind, [user.data] stays as it was under
    that [id]. *)
Theorem untyped_fields_skipped (fields : list Control)
    (d : gmap string (string + bool)) (i : string) :
  (∀ c t, c ∈ fields → element_id c = i →
          getAttribute "data-wf-user-field-type" (element c) = Some t →
          t ∉ ["PlainText"; "Email"; "Link"; "Option"; "Number"; "Bool"]) →
  fold_left field_step fields d !! i = d !! i.
Proof.
  intros H. apply fold_field_step_keeps. intros c d' Hc.
  destruct (decide (element_id c = i)) as [E|E];
    [|by apply field_step_other].
  rewrite field_step_untyped; [done|]. intros t. by apply H.
Qed.

(** X22. Of several fields with the same [id] the last one counts: for a
    field with a usable [id] and one of the six types, followed by no field
    of the same [id], [user.data] holds under that [id] what the assignment
    of the field put there: the [value] of the element for the five text
    types and its [checked] state for [Bool], and no entry, whatever an
    earlier field of the same [id] had put there, when the element has no
    such property. *)
Theorem last_field_wins (before after : list Control) (c : Control)
    (t : string) (d : gmap string (string + bool)) :
  element_id c ≠ "" →
  startsWith (element_id c) "wf-user-account-" = false →
  getAttribute "data-wf-user-field-type" (element c) = Some t →
  (∀ c', c' ∈ after → element_id c' ≠ element_id c) →
  (t ∈ ["PlainText"; "Email"; "Link"; "Option"; "Number"] →
   fold_left field_step (before ++ c :: after)%list d !! element_id c
     = inl <$> value c) ∧
  (t = "Bool" →
   fold_left field_step (before ++ c :: after)%list d !! element_id c
     = inr <$> checked c).
Proof.
  intros Hid Hres Ht Hafter.
  assert (∀ d', fold_left field_step (before ++ c :: after)%list d'
                  !! element_id c = field_step
                       (fold_left field_step before d') c !! element_id c)
    as E.
  { intros d'. rewrite fold_left_app. simpl.
    apply fold_field_step_keeps. intros c' d'' Hc'.
    by apply field_step_other, Hafter. }
  rewrite !E. unfold field_step. rewrite Ht, Hres.
  apply String.eqb_neq in Hid as ->.
  split.
  - intros Hin.
    assert (String.eqb t "PlainText" || String.eqb t "Email"
            || String.eqb t "Link" || String.eqb t "Option"
            || String.eqb t "Number" = true) as Hor.
    { repeat (apply elem_of_cons in Hin as [-> | Hin];
              [by rewrite String.eqb_refl, ?orb_true_r|]).
      by apply elem_of_nil in Hin. }
    destruct (String.eqb t "PlainText" || String.eqb t "Email"
              || String.eqb t "Link" || String.eqb t "Option") eqn:T4;
      [apply assign_eq|].
    simpl in Hor. rewrite Hor. apply assign_eq.
  - intros ->. simpl. apply assign_eq.
Qed.

(** X23. The user object of the scrape outlives the single run of the
    delayed callback: when the e-mail field changes again and the page then
    has no name element, no consent checkbox and no field of a given [id],
    the name, the consent and the custom field of the earlier run are still
    in the object that is cached. *)
Theorem earlier_fields_survive (user : Sa5User) (input : Control)
    (doc : list Control) (i : string) :
  userNameElement doc = None →
  acceptCommunicationsCheckbox doc = None →
  (∀ c, c ∈ userDataFields doc → element_id c ≠ i) →
  email (fill user input (Some doc)) = value input ∧
  name (fill user input (Some doc)) = name user ∧
  accept_communications (fill user input (Some doc))
    = accept_communications user ∧
  data (fill user input (Some doc)) !! i = data user !! i.
Proof.
  intros Hn Ha Hi. unfold fill. rewrite Hn, Ha. simpl.
  repeat split. apply fold_field_step_keeps. intros c d' Hc.
  by apply field_step_other, Hi.
Qed.

Context `{P : Platform}.

(** X24. When the scrape completes for the first time after the frame has
    loaded, what is cached has the e-mail of the e-mail input, the name and
    the consent that the name element and the consent checkbox of the page
    give (nothing where the page has no such element or the element has no
    such property, even if the cache had them), exactly the custom fields
    collected from the page, and the flags [email], [account_info] and
    [custom_fields] set; of the profile cached before only the
    [access_groups] flag is left. *)
Theorem scrape_replaces_profile (cfg : Config) (input : Control)
    (doc : list Control) (cached : option Sa5User) (b : Browser) :
  stored_truthy → stored_roundtrip →
  loadUserInfoCache b = Normal cached →
  loadUserInfoCache (loaded cfg new_user input (Some doc) b).2 =
    Normal (Some
      (mkUser (value input)
         (userNameElement doc ≫= value)
         (acceptCommunicationsCheckbox doc ≫= checked)
         (fold_left field_step (userDataFields doc) ∅)
         (mkFlags true true true
            (fl_access_groups
               (user_data_loaded (default blank_user cached)))))).
Proof.
  intros Ht Hr Hc. unfold loaded. cbn [snd].
  rewrite (loadUserInfoCache_saved _ _ _ _ Ht Hr Hc).
  rewrite merge_fields. unfold fill, new_user.
  destruct (userNameElement doc), (acceptCommunicationsCheckbox doc);
    simpl; by rewrite !orb_true_r, orb_false_r.
Qed.

End AccountScrape.

(** ** The further facts at sample inputs *)

Section MoreSamples.
Import WfuTracker Sa5Membership AccountInfo Sample SamplePage.
Existing Instance Reference.platform.

Lemma sample_jar_seen :
  jar_ok (cookies jar) ∧ name_ok (trackKey cookie_tracker "seen") ∧
  ∀ c, c ∈ cookies jar →
       startsWith c.1 (trackKey cookie_tracker "seen") = true →
       c.1 = trackKey cookie_tracker "seen".
Proof.
  split; [apply jar_ok_sample|]. split; [apply name_ok_track_seen|].
  intros c Hc S.
  repeat (apply elem_of_cons in Hc as [-> | Hc]; [done || discriminate|]).
  by apply elem_of_nil in Hc.
Qed.

Lemma untrack_then_isTracked_witness :
  isTracked cookie_tracker "seen" (untrack cookie_tracker "seen" jar) = None.
Proof.
  exact (untrack_then_isTracked cookie_tracker "seen" jar
           (or_intror (or_intror eq_refl)) (λ _, sample_jar_seen)).
Defined.

Lemma other_key_untouched_witness :
  isTracked session_tracker "b" (track session_tracker "a" (Some "1") jar)
    = isTracked session_tracker "b" jar ∧
  isTracked session_tracker "b" (untrack session_tracker "a" jar)
    = isTracked session_tracker "b" jar.
Proof.
  apply (other_key_untouched session_tracker "a" "b" (Some "1") jar
           (or_introl eq_refl)).
  discriminate.
Defined.

Lemma themed_trackable_longer :
  cookie_trackable cookie_tracker ("seen" +:+ "_v2") (Some "yes") themed.
Proof.
  split; [repeat constructor; done|].
  split; [by repeat split|].
  do 4 (split; [done|]).
  intros c ->%list_elem_of_singleton. discriminate.
Qed.

Lemma longer_key_answers_witness :
  isTracked cookie_tracker "seen"
    (track cookie_tracker ("seen" +:+ "_v2") (Some "yes") themed)
    = Some "yes".
Proof.
  apply (longer_key_answers cookie_tracker "seen" "_v2" (Some "yes") themed
           eq_refl themed_trackable_longer).
  intros c ->%list_elem_of_singleton. reflexivity.
Defined.

Lemma reset_then_isTracked_witness :
  isTracked cookie_tracker "seen" (reset cookie_tracker jar) = None.
Proof.
  exact (reset_then_isTracked cookie_tracker "seen" jar
           (or_intror (or_intror eq_refl))
           (λ _, conj jar_ok_sample eq_refl)).
Defined.

Lemma unknown_method_inert_witness :
  track odd_tracker "seen" None jar = jar ∧
  untrack odd_tracker "seen" jar = jar ∧
  reset odd_tracker jar = jar ∧
  isTracked odd_tracker "seen" jar = None ∧
  getItem odd_tracker "seen" jar = None.
Proof.
  apply (unknown_method_inert odd_tracker "seen" None jar); discriminate.
Defined.

Lemma track_twice_witness :
  track cookie_tracker "seen" (Some "2")
    (track cookie_tracker "seen" (Some "1") jar)
    = track cookie_tracker "seen" (Some "2") jar.
Proof.
  apply (track_twice cookie_tracker "seen" (Some "1") (Some "2") jar).
  intros _. split; [apply name_ok_track_seen|]. by repeat split.
Defined.

Lemma reset_drops_membership_witness :
  loadUserInfoCache (reset session_tracker cached) = Normal None ∧
  getUserKey (reset local_tracker keyed) = Normal None.
Proof.
  split.
  - exact (proj1 (reset_drops_membership session_tracker cached) eq_refl).
  - exact (proj2 (reset_drops_membership local_tracker keyed) eq_refl).
Defined.

Lemma save_twice_witness :
  sessionStorage (merges cfg [login_alice; login_alice] cached)
    = sessionStorage (merges cfg [login_alice] cached) ∧
  localStorage (merges cfg [login_alice; login_alice] cached)
    = localStorage (merges cfg [login_alice] cached).
Proof.
  exact (save_twice cfg login_alice cached
           reference_truthy reference_roundtrip).
Defined.

Lemma flagless_partial_witness :
  loadUserInfoCache
    (saveUserInfoCache cfg
       (mkUser (Some "eve@example.com") (Some "Eve") None ∅ blank_flags)
       cached).2
    = Normal (Some scraped).
Proof.
  exact (flagless_partial cfg
           (mkUser (Some "eve@example.com") (Some "Eve") None ∅ blank_flags)
           (Some scraped) cached
           reference_truthy reference_roundtrip cached_loads eq_refl).
Defined.

Lemma corrupt_cache_throws_witness :
  saveUserInfoCache cfg login_alice corrupt = (Throw, corrupt) ∧
  readyUserInfo cfg corrupt = (Throw, corrupt).
Proof.
  assert (sessionStorage corrupt !! "wfuUser" = Some "garbage") as E
    by reflexivity.
  assert ("garbage" ≠ "") as N by discriminate.
  exact (conj
           (proj1 (corrupt_cache_throws cfg login_alice "garbage" corrupt
                     E N eq_refl))
           (proj2 (corrupt_cache_throws cfg login_alice "garbage" corrupt
                     E N eq_refl) eq_refl)).
Defined.

Lemma save_notifies_what_it_stored_witness :
  ∃ (merged : Sa5User) (new : list Event),
    loadUserInfoCache (saveUserInfoCache cfg login_alice cached).2
      = Normal (Some merged) ∧
    log (saveUserInfoCache cfg login_alice cached).2
      = (log cached ++ new)%list ∧
    databind_calls new = [merged] ∧
    callback_calls new = [merged] ∧
    launched new = [].
Proof.
  exact (save_notifies_what_it_stored cfg login_alice (Some scraped) cached
           reference_truthy reference_roundtrip cached_loads).
Defined.

Lemma loadUserInfoAsync_with_key_witness :
  loadUserInfoCache (loadUserInfoAsync cfg keyed)
    = Normal (Some login_alice) ∧
  ∃ new : list Event,
    log (loadUserInfoAsync cfg keyed) = (log keyed ++ new)%list ∧
    launched new = [LoginInfo; AccountInfo; AccessGroups] ∧
    databind_calls new = [login_alice] ∧
    callback_calls new = [login_alice].
Proof.
  apply (loadUserInfoAsync_with_key cfg "alice@example.com"
           "alice@example.com" keyed
           reference_truthy reference_roundtrip);
    [reflexivity|reflexivity|discriminate|reflexivity|discriminate].
Defined.

Lemma loadUserInfoAsync_without_key_witness :
  sessionStorage (loadUserInfoAsync cfg cached)
    = delete "wfuUser" (sessionStorage cached) ∧
  localStorage (loadUserInfoAsync cfg cached) = localStorage cached ∧
  log (loadUserInfoAsync cfg cached)
    = (log cached ++ [EvLaunch LoginInfo; EvLaunch AccountInfo;
                      EvLaunch AccessGroups])%list.
Proof.
  exact (loadUserInfoAsync_without_key cfg cached eq_refl
           (or_introl (lookup_empty _))).
Defined.

Lemma loadUserInfoAsync_logged_out_witness :
  loadUserInfoAsync cfg stale = clearUserInfo stale ∧
  sessionStorage (loadUserInfoAsync cfg stale) !! "wfuUser" = None ∧
  localStorage (loadUserInfoAsync cfg stale) !! "wfuUserKey" = None ∧
  log (loadUserInfoAsync cfg stale) = log stale.
Proof. exact (loadUserInfoAsync_logged_out cfg stale eq_refl). Defined.

Lemma readyUserInfo_without_cache_witness :
  (readyUserInfo cfg arrived).1 = Normal JsUndefined ∧
  ∃ new : list Event,
    log (readyUserInfo cfg arrived).2 = (log arrived ++ new)%list ∧
    launched new = [LoginInfo; AccountInfo; AccessGroups].
Proof.
  exact (readyUserInfo_without_cache cfg arrived eq_refl
           (or_introl (lookup_empty _))).
Defined.

Lemma getUserKey_never_set_witness :
  getUserKey
    (clearUserInfo (loginFormSubmit "alice@example.com" arrived))
    = Normal None.
Proof.
  apply (getUserKey_never_set cfg arrived).
  - eapply rtc_l; [apply step_submit|]. apply rtc_once, step_clear.
  - apply lookup_empty.
Defined.

Lemma reserved_ids_skipped_witness :
  fold_left field_step (userDataFields page) ∅ !! "wf-user-account-name"
    = (∅ : gmap string (string + bool)) !! "wf-user-account-name".
Proof.
  exact (reserved_ids_skipped (userDataFields page) ∅ "wf-user-account-name"
           (or_intror eq_refl)).
Defined.

Lemma untyped_fields_skipped_witness :
  fold_left field_step (userDataFields page) ∅ !! "avatar"
    = (∅ : gmap string (string + bool)) !! "avatar".
Proof.
  apply (untyped_fields_skipped (userDataFields page) ∅ "avatar").
  intros c t Hc Hi Ht.
  change (userDataFields page) with [nameInput; planSelect; newsletterBox;
                                     avatarFile; noteDiv] in Hc.
  repeat (apply elem_of_cons in Hc as [-> | Hc]; [try discriminate Hi|]).
  - injection Ht as <-. intros Hin.
    repeat (apply elem_of_cons in Hin as [Hin|Hin]; [discriminate|]).
    by apply elem_of_nil in Hin.
  - by apply elem_of_nil in Hc.
Defined.

Lemma last_field_wins_witness :
  ("Option" ∈ ["PlainText"; "Email"; "Link"; "Option"; "Number"] →
   fold_left field_step ([nameInput] ++ planSelect :: [newsletterBox])%list ∅
     !! element_id planSelect = inl <$> value planSelect) ∧
  ("Option" = "Bool" →
   fold_left field_step ([nameInput] ++ planSelect :: [newsletterBox])%list ∅
     !! element_id planSelect = inr <$> checked planSelect).
Proof.
  apply (last_field_wins [nameInput] [newsletterBox] planSelect "Option" ∅);
    [discriminate|reflexivity|reflexivity|].
  intros c' ->%list_elem_of_singleton. discriminate.
Defined.

Lemma earlier_fields_survive_witness :
  email (fill filled emailInput (Some [emailInput]))
    = value emailInput ∧
  name (fill filled emailInput (Some [emailInput])) = name filled ∧
  accept_communications (fill filled emailInput (Some [emailInput]))
    = accept_communications filled ∧
  data (fill filled emailInput (Some [emailInput])) !! "plan"
    = data filled !! "plan".
Proof.
  apply (earlier_fields_survive filled emailInput [emailInput] "plan");
    [reflexivity|reflexivity|].
  intros c Hc. by apply elem_of_nil in Hc.
Defined.

Lemma scrape_replaces_profile_witness :
  loadUserInfoCache (loaded cfg new_user emailInput (Some page) cached).2 =
    Normal (Some
      (mkUser (value emailInput)
         (userNameElement page ≫= value)
         (acceptCommunicationsCheckbox page ≫= checked)
         (fold_left field_step (userDataFields page) ∅)
         (mkFlags true true true
            (fl_access_groups
               (user_data_loaded (default blank_user (Some scraped))))))).
Proof.
  exact (scrape_replaces_profile cfg emailInput page (Some scraped) cached
           reference_truthy reference_roundtrip cached_loads).
Defined.

(** A later field without a [value] takes the entry of an earlier field of
    the same [id] away. *)
Example undefined_value_leaves_no_entry :
  fold_left field_step [planSelect] ∅ !! "plan" = Some (inl "gold") ∧
  fold_left field_step [planSelect; planDiv] ∅ !! "plan" = None.
Proof. vm_compute. done. Qed.

(** What the sample page gives. *)
Example sample_page_filled :
  email filled = Some "alice@example.com" ∧
  name filled = Some "Alice" ∧
  accept_communications filled = None ∧
  data filled !! "plan" = Some (inl "gold") ∧
  data filled !! "newsletter" = Some (inr true) ∧
  data filled !! "avatar" = None ∧
  data filled !! "note" = None ∧
  data filled !! "wf-user-account-name" = None.
Proof. vm_compute. done. Qed.

End MoreSamples.
